(** * Conservative Twitter outreach strategy: qualification, sequencing, rendering

    A shallow embedding of the class [TwitterOutreachStrategy]
    (utils/twitter-outreach-strategy.js) and the properties its
    specification states about it.

    Conventions of the embedding.
    - A property of a JavaScript object that may be absent is an [option];
      [None] stands for [undefined].
    - Counts (followers, likes, comments, remaining quota) are integers, [Z].
      The only non-integer arithmetic of the source is the quotient
      likes / followers, compared with 0.5 and with 1.0; it is computed in
      [Q], which agrees with IEEE doubles on these two comparisons for counts
      below 2^53 (both thresholds are representable and the correctly rounded
      quotient of two such integers cannot cross them).
    - Text is [string]: characters are the code units 0..255 (Latin-1).
    - Evaluation happens in the monad [Js], which records whether a
      [TypeError] was thrown and which divisions were performed.
    - Each [new Date()] of the source is a parameter [now] (milliseconds since
      the epoch); a [Date] value is its time value. *)

From Stdlib Require Import ZArith QArith Bool List Sorted String Ascii Lia.
Import ListNotations.

Local Open Scope string_scope.
Local Open Scope Z_scope.

Set Implicit Arguments.

(* ================================================================== *)
(** ** JavaScript text primitives *)

Module JsString.

(** [String.prototype.toLowerCase] on one Latin-1 code unit: A-Z and the
    accented capitals U+00C0..U+00DE (U+00D7, the multiplication sign,
    excepted) move 32 places up. *)
Definition lowerChar (c : ascii) : ascii :=
  let n := nat_of_ascii c in
  if ((65 <=? n)%nat && (n <=? 90)%nat)
     || ((192 <=? n)%nat && (n <=? 222)%nat && negb (n =? 215)%nat)
  then ascii_of_nat (n + 32)
  else c.

Fixpoint toLowerCase (s : string) : string :=
  match s with
  | EmptyString => EmptyString
  | String c s' => String (lowerChar c) (toLowerCase s')
  end.

(** [s.includes(pat)]: [pat] occurs in [s] as a contiguous substring. *)
Fixpoint includes (s pat : string) : bool :=
  prefix pat s
  || match s with
     | EmptyString => false
     | String _ s' => includes s' pat
     end.

Fixpoint drop (n : nat) (s : string) : string :=
  match n, s with
  | O, _ => s
  | S _, EmptyString => EmptyString
  | S k, String _ s' => drop k s'
  end.

(** The text before and after the first occurrence of [pat] in [s]. *)
Fixpoint splitAtFirst (pat s : string) : option (string * string) :=
  if prefix pat s then Some (EmptyString, drop (length pat) s)
  else match s with
       | EmptyString => None
       | String c s' =>
           match splitAtFirst pat s' with
           | Some (before, after) => Some (String c before, after)
           | None => None
           end
       end.

(** GetSubstitution (ECMA-262) for a match without capture groups: in the
    replacement text, [$$] is a dollar sign, [$&] the matched text,
    [$`] the text before the match and [$'] the text after it; any other
    use of [$] stays as written. *)
Fixpoint getSubstitution (matched before after replacement : string) : string :=
  match replacement with
  | EmptyString => EmptyString
  | String "$" (String "$" r) =>
      String "$" (getSubstitution matched before after r)
  | String "$" (String "&" r) =>
      matched ++ getSubstitution matched before after r
  | String "$" (String "`" r) =>
      before ++ getSubstitution matched before after r
  | String "$" (String "'" r) =>
      after ++ getSubstitution matched before after r
  | String c r => String c (getSubstitution matched before after r)
  end.

(** [s.replace(pat, replacement)] with a string pattern: only the first
    occurrence is replaced. *)
Definition replace (pat replacement s : string) : string :=
  match splitAtFirst pat s with
  | Some (before, after) =>
      before ++ getSubstitution pat before after replacement ++ after
  | None => s
  end.

(** [s.replace(/pat/g, replacement)] for a regular expression that is a
    non-empty literal: every non-overlapping occurrence, left to right.
    [before] is the part of the subject already scanned, [skip] the number
    of characters of the current match still to be passed over. *)
Fixpoint replaceAllFrom (pat replacement before : string) (skip : nat)
         (s : string) : string :=
  match s with
  | EmptyString => EmptyString
  | String c s' =>
      match skip with
      | S k => replaceAllFrom pat replacement (before ++ String c EmptyString) k s'
      | O =>
          if prefix pat s
          then getSubstitution pat before (drop (length pat) s) replacement
               ++ replaceAllFrom pat replacement (before ++ String c EmptyString)
                    (length pat - 1) s'
          else String c (replaceAllFrom pat replacement
                           (before ++ String c EmptyString) 0 s')
      end
  end.

Definition replaceAll (pat replacement s : string) : string :=
  replaceAllFrom pat replacement EmptyString 0 s.

(** [s.split(".")]: the maximal pieces between separators; never empty. *)
Fixpoint split (sep : ascii) (s : string) : list string :=
  match s with
  | EmptyString => [EmptyString]
  | String c s' =>
      if Ascii.eqb c sep then EmptyString :: split sep s'
      else match split sep s' with
           | piece :: pieces => String c piece :: pieces
           | [] => [String c EmptyString]
           end
  end.

(** White space and line terminators among the code units 0..255. *)
Definition isWhiteSpace (c : ascii) : bool :=
  let n := nat_of_ascii c in
  ((9 <=? n)%nat && (n <=? 13)%nat) || (n =? 32)%nat || (n =? 160)%nat.

Fixpoint trimStart (s : string) : string :=
  match s with
  | EmptyString => EmptyString
  | String c s' => if isWhiteSpace c then trimStart s' else s
  end.

(** Drops trailing white space: a character is kept when it is not white
    space or when something is kept after it. *)
Fixpoint trimEnd (s : string) : string :=
  match s with
  | EmptyString => EmptyString
  | String c s' =>
      match trimEnd s' with
      | EmptyString => if isWhiteSpace c then EmptyString else String c EmptyString
      | rest => String c rest
      end
  end.

Definition trim (s : string) : string := trimEnd (trimStart s).

(** [s.substring(0, n)]. *)
Fixpoint take (n : nat) (s : string) : string :=
  match n, s with
  | O, _ => EmptyString
  | S _, EmptyString => EmptyString
  | S k, String c s' => String c (take k s')
  end.

End JsString.

(* ================================================================== *)
(** ** JavaScript numbers produced by a division *)

Inductive Num : Type :=
| Fin (q : Q)
| PosInf
| NegInf
| NaN.

(** [x >= threshold] for a finite threshold; [NaN] compares false. *)
Definition geNum (x : Num) (threshold : Q) : bool :=
  match x with
  | Fin q => Qle_bool threshold q
  | PosInf => true
  | NegInf => false
  | NaN => false
  end.

(** Relational operators against an operand that may be [undefined]:
    [undefined] converts to [NaN] and every comparison is false. *)
Definition gt (x : option Z) (k : Z) : bool :=
  match x with Some n => k <? n | None => false end.
Definition ge (x : option Z) (k : Z) : bool :=
  match x with Some n => k <=? n | None => false end.
Definition le (x : option Z) (k : Z) : bool :=
  match x with Some n => n <=? k | None => false end.

(* ================================================================== *)
(** ** The evaluation monad *)

Inductive JsError : Type := TypeError.

Inductive Completion (A : Type) : Type :=
| Normal (a : A)
| Throw (e : JsError).

Arguments Throw {A} e.

(** An evaluation: the denominators of the divisions it performed, in
    order, and how it ended. *)
Record Js (A : Type) : Type := mkJs {
  divisors : list (option Z);
  completion : Completion A
}.

Definition ret {A} (a : A) : Js A := mkJs [] (Normal a).
Definition throw {A} (e : JsError) : Js A := mkJs [] (Throw e).

Definition bind {A B} (m : Js A) (k : A -> Js B) : Js B :=
  match completion m with
  | Normal a => let r := k a in mkJs (divisors m ++ divisors r)%list (completion r)
  | Throw e => mkJs (divisors m) (Throw e)
  end.

Notation "x <- m ;; k" := (bind m (fun x => k))
  (at level 61, m at next level, right associativity).

(** [v.p]: reading a property of [undefined] throws a [TypeError]. *)
Definition member {A B} (v : option A) (p : A -> B) : Js B :=
  match v with
  | Some a => ret (p a)
  | None => throw TypeError
  end.

(** [v?.p]: optional chaining yields [undefined] instead of throwing. *)
Definition optChain {A B} (v : option A) (p : A -> B) : option B :=
  match v with
  | Some a => Some (p a)
  | None => None
  end.

(** [n / d]: never throws; an [undefined] operand gives [NaN], a zero
    denominator an infinity or [NaN].  The denominator is recorded. *)
Definition divide (n d : option Z) : Js Num :=
  mkJs [d]
    (Normal
       match n, d with
       | Some a, Some b =>
           if b =? 0
           then (if 0 <? a then PosInf else if a <? 0 then NegInf else NaN)
           else Fin (inject_Z a / inject_Z b)
       | _, _ => NaN
       end).

(** Truthiness. *)
Definition truthyString (v : option string) : bool :=
  match v with
  | Some (String _ _) => true
  | _ => false
  end.

Definition truthyBool (v : option bool) : bool :=
  match v with
  | Some b => b
  | None => false
  end.

(** Arrays, objects and dates are truthy whenever they are present. *)
Definition defined {A} (v : option A) : bool :=
  match v with
  | Some _ => true
  | None => false
  end.

(** [Array.prototype.some] with a callback that may throw: stops at the
    first element for which the callback is truthy. *)
Fixpoint someM {A} (callback : A -> Js bool) (l : list A) : Js bool :=
  match l with
  | [] => ret false
  | x :: l' => b <- callback x ;; if b then ret true else someM callback l'
  end.

(* ================================================================== *)
(** ** Data model *)

(** [tweet.engagement]. *)
Record Engagement : Type := {
  likes : option Z;
  comments : option Z
}.

(** An element of [lead.recentTweets]; also the [tweetData] argument of the
    message renderer. *)
Record Tweet : Type := {
  text : option string;
  engagement : option Engagement
}.

(** The fields of a lead that the strategy reads.  [lastActivity] is a
    [Date]. *)
Record Lead : Type := {
  username : option string;
  bio : option string;
  followerCount : option Z;
  recentTweets : option (list Tweet);
  lastActivity : option Z;
  keywords : option (list string);
  hasEngagedWithUs : option bool;
  mutualConnections : option (list string)
}.

(** One entry of the object returned by [getRemainingQuota]. *)
Record QuotaEntry : Type := {
  remaining : Z;
  used : Z;
  limit : Z
}.

Record ApiQuota : Type := {
  userLookup : QuotaEntry;
  tweetLookup : QuotaEntry;
  follow : QuotaEntry;
  like : QuotaEntry;
  dmSend : QuotaEntry
}.

Module Action.
Inductive t : Type := research | follow | like | dmSend.
End Action.

Inductive ApiCost : Type := low | medium | high.

Record Step : Type := {
  action : Action.t;
  priority : Z;
  reason : string;
  apiCost : ApiCost
}.

(** [this.targetingCriteria]. *)
Record TargetingCriteria : Type := {
  minFollowers : Z;
  maxFollowers : Z;
  minEngagement : Q;
  recentActivity : Z;
  relevantKeywords : list string;
  excludeKeywords : list string
}.

Definition targetingCriteria : TargetingCriteria := {|
  minFollowers := 100;
  maxFollowers := 50000;
  minEngagement := 5 # 10;
  recentActivity := 7;
  relevantKeywords :=
    ["AI"; "automation"; "SaaS"; "marketing"; "sales"; "growth"; "startup"; "tech"];
  excludeKeywords := ["spam"; "bot"; "fake"; "buy followers"]
|}.

(* ================================================================== *)
(** ** Qualification predicates *)

(** The fields of the object literal [basicCriteria], in order. *)
Module basicCriteria.

Definition hasUsername (lead : Lead) : Js bool :=
  if truthyString (username lead)
  then len <- member (username lead) String.length ;; ret (0 <? len)%nat
  else ret false.

Definition noSpamKeywords (lead : Lead) : Js bool :=
  ret (negb (existsb
               (fun keyword =>
                  truthyBool (optChain (username lead)
                                (fun u => JsString.includes (JsString.toLowerCase u) keyword))
                  || truthyBool (optChain (bio lead)
                                   (fun b => JsString.includes (JsString.toLowerCase b) keyword)))
               (excludeKeywords targetingCriteria))).

Definition hasRelevantKeywords (lead : Lead) : Js bool :=
  if defined (keywords lead)
  then member (keywords lead)
         (existsb (fun keyword =>
                     existsb (fun relevant =>
                                JsString.includes (JsString.toLowerCase keyword)
                                  (JsString.toLowerCase relevant))
                       (relevantKeywords targetingCriteria)))
  else ret false.

End basicCriteria.

(** [Object.values(basicCriteria).every(Boolean)]. *)
Definition isWorthResearching (lead : Lead) : Js bool :=
  hasUsername <- basicCriteria.hasUsername lead ;;
  noSpamKeywords <- basicCriteria.noSpamKeywords lead ;;
  hasRelevantKeywords <- basicCriteria.hasRelevantKeywords lead ;;
  ret (forallb (fun v : bool => v) [hasUsername; noSpamKeywords; hasRelevantKeywords]).

(** [lead.recentTweets?.reduce((total, tweet) =>
      total + (tweet.engagement?.likes || 0), 0)].  The like counts are
    whole numbers and their sum is exact; the source adds doubles, which
    gives the same sum as long as it stays within 2^53. *)
Definition likesOrZero (tweet : Tweet) : Z :=
  match optChain (engagement tweet) likes with
  | Some (Some n) => n
  | _ => 0
  end.

Definition totalLikes (lead : Lead) : option Z :=
  optChain (recentTweets lead)
    (fun tweets => fold_left (fun total tweet => total + likesOrZero tweet) tweets 0).

(** [lead.followerCount > 0 && (totalLikes / lead.followerCount) >= threshold]:
    the quotient is evaluated only when the guard is truthy. *)
Definition engagementRateAtLeast (threshold : Q) (lead : Lead) : Js bool :=
  if gt (followerCount lead) 0
  then rate <- divide (totalLikes lead) (followerCount lead) ;;
       ret (geNum rate threshold)
  else ret false.

(** [lead.lastActivity && (new Date() - new Date(lead.lastActivity)) < days],
    with [days] already multiplied out to milliseconds by the caller's
    expression [days * 24 * 60 * 60 * 1000].  [new Date(undefined)] is an
    invalid date, whose difference with [now] is [NaN] and compares false. *)
Definition activeWithin (days now : Z) (lead : Lead) : Js bool :=
  if defined (lastActivity lead)
  then ret (match lastActivity lead with
            | Some last => now - last <? days * 24 * 60 * 60 * 1000
            | None => false
            end)
  else ret false.

(** The fields of the object literal [criteria], in order. *)
Module criteria.

Definition hasRecentActivity (lead : Lead) : Js bool :=
  if defined (recentTweets lead)
  then len <- member (recentTweets lead) (@List.length Tweet) ;; ret (0 <? len)%nat
  else ret false.

Definition goodEngagement (lead : Lead) : Js bool :=
  if defined (recentTweets lead)
  then tweets <- member (recentTweets lead) (fun l => l) ;;
       someM (fun tweet =>
                if defined (engagement tweet)
                then l <- member (engagement tweet) likes ;;
                     if gt l 3 then ret true
                     else c <- member (engagement tweet) comments ;; ret (gt c 0)
                else ret false)
         tweets
  else ret false.

Definition relevantContent (lead : Lead) : Js bool :=
  if defined (keywords lead)
  then len <- member (keywords lead) (@List.length string) ;; ret (0 <? len)%nat
  else ret false.

Definition activeUser (now : Z) (lead : Lead) : Js bool :=
  activeWithin (recentActivity targetingCriteria) now lead.

Definition reasonableFollowerCount (lead : Lead) : Js bool :=
  ret (ge (followerCount lead) (minFollowers targetingCriteria)
       && le (followerCount lead) (maxFollowers targetingCriteria)).

Definition goodEngagementRate (lead : Lead) : Js bool :=
  engagementRateAtLeast (minEngagement targetingCriteria) lead.

End criteria.

(** [Object.values(criteria).filter(Boolean).length]. *)
Definition countMet (values : list bool) : nat :=
  List.length (filter (fun v : bool => v) values).

Definition isWorthEngaging (now : Z) (lead : Lead) : Js bool :=
  hasRecentActivity <- criteria.hasRecentActivity lead ;;
  goodEngagement <- criteria.goodEngagement lead ;;
  relevantContent <- criteria.relevantContent lead ;;
  activeUser <- criteria.activeUser now lead ;;
  reasonableFollowerCount <- criteria.reasonableFollowerCount lead ;;
  goodEngagementRate <- criteria.goodEngagementRate lead ;;
  let metCriteria :=
    countMet [hasRecentActivity; goodEngagement; relevantContent; activeUser;
              reasonableFollowerCount; goodEngagementRate] in
  ret (3 <=? metCriteria)%nat.

(** The fields of the object literal [strictCriteria], in order. *)
Module strictCriteria.

Definition hasEngagedWithUs (lead : Lead) : Js bool :=
  ret (truthyBool (hasEngagedWithUs lead) || false).

Definition mutualConnections (lead : Lead) : Js bool :=
  if defined (mutualConnections lead)
  then len <- member (mutualConnections lead) (@List.length string) ;;
       ret (0 <? len)%nat
  else ret false.

Definition highEngagementRate (lead : Lead) : Js bool :=
  engagementRateAtLeast 1 lead.

Definition veryRecentActivity (now : Z) (lead : Lead) : Js bool :=
  activeWithin 3 now lead.

Definition perfectMatch (lead : Lead) : Js bool :=
  if defined (keywords lead)
  then member (keywords lead)
         (existsb (fun keyword =>
                     existsb (fun perfect =>
                                JsString.includes (JsString.toLowerCase keyword)
                                  (JsString.toLowerCase perfect))
                       ["AI"; "automation"; "SaaS"]))
  else ret false.

End strictCriteria.

Definition isHighlyQualified (now : Z) (lead : Lead) : Js bool :=
  hasEngagedWithUs <- strictCriteria.hasEngagedWithUs lead ;;
  mutualConnections <- strictCriteria.mutualConnections lead ;;
  highEngagementRate <- strictCriteria.highEngagementRate lead ;;
  veryRecentActivity <- strictCriteria.veryRecentActivity now lead ;;
  perfectMatch <- strictCriteria.perfectMatch lead ;;
  let metCriteria :=
    countMet [hasEngagedWithUs; mutualConnections; highEngagementRate;
              veryRecentActivity; perfectMatch] in
  ret (2 <=? metCriteria)%nat.

(* ================================================================== *)
(** ** Sequence builder *)

Definition researchStep : Step := {|
  action := Action.research;
  priority := 1;
  reason := "Gather data for qualification";
  apiCost := low
|}.

Definition followStep : Step := {|
  action := Action.follow;
  priority := 2;
  reason := "Build relationship first (conservative approach)";
  apiCost := medium
|}.

Definition likeStep : Step := {|
  action := Action.like;
  priority := 3;
  reason := "Show appreciation for recent content";
  apiCost := medium
|}.

Definition dmSendStep : Step := {|
  action := Action.dmSend;
  priority := 4;
  reason := "Direct outreach only to highly qualified leads";
  apiCost := high
|}.

(** [getOutreachSequence(lead, apiQuota)].  [sequence.push(step)] appends
    to the local array.  [nowEngaging] and [nowQualified] are the clock
    readings of [isWorthEngaging] and of [isHighlyQualified]. *)
Definition getOutreachSequence (nowEngaging nowQualified : Z)
           (lead : Lead) (apiQuota : ApiQuota) : Js (list Step) :=
  let sequence : list Step := [] in
  worthResearching <-
    (if 0 <? remaining (userLookup apiQuota)
     then isWorthResearching lead
     else ret false) ;;
  let sequence :=
    if worthResearching then (sequence ++ [researchStep])%list else sequence in
  worthEngaging <-
    (if (0 <? remaining (follow apiQuota)) && (0 <? remaining (like apiQuota))
     then isWorthEngaging nowEngaging lead
     else ret false) ;;
  sequence <-
    (if worthEngaging
     then
       let sequence := (sequence ++ [followStep])%list in
       hasContent <-
         (if defined (recentTweets lead)
          then len <- member (recentTweets lead) (@List.length Tweet) ;;
               ret ((0 <? len)%nat && (0 <? remaining (like apiQuota)))
          else ret false) ;;
       ret (if hasContent then (sequence ++ [likeStep])%list else sequence)
     else ret sequence) ;;
  sendDm <-
    (if 0 <? remaining (dmSend apiQuota)
     then highlyQualified <- isHighlyQualified nowQualified lead ;;
          ret (highlyQualified && (2 <=? List.length sequence)%nat)
     else ret false) ;;
  ret (if sendDm then (sequence ++ [dmSendStep])%list else sequence).

(* ================================================================== *)
(** ** Message renderer *)

(** What [this.dmTemplates[type]] evaluates to: an own property (a template
    text), a property inherited from [Object.prototype] (a function, or the
    prototype object itself for [__proto__]), or [undefined]. *)
Inductive Property : Type :=
| Text (template : string)
| Inherited
| Undefined.

Definition objectPrototypeNames : list string :=
  ["constructor"; "hasOwnProperty"; "isPrototypeOf"; "propertyIsEnumerable";
   "toLocaleString"; "toString"; "valueOf"; "__proto__";
   "__defineGetter__"; "__defineSetter__"; "__lookupGetter__"; "__lookupSetter__"].


Definition initialTemplate : string :=
  "Hi {{username}}! Loved your thread about {{threadTopic}}. Your point about {{specificInsight}} really resonated. I'm building {{solution}} and think you might find {{value}} interesting. Would you be open to a quick chat?".

Definition followUpTemplate : string :=
  "Hi {{username}}! Just wanted to follow up on my previous message about {{topic}}. No pressure, but I'd love to share some insights that might be valuable for your work. Cheers!".

Definition warmTemplate : string :=
  "Hi {{username}}! Thanks for the follow back. I noticed your recent post about {{recentTopic}} - really insightful! I'm working on similar {{solution}} initiatives and would love to connect. Best regards!".

Definition dmTemplates (type : string) : Property :=
  if String.eqb type "initial" then Text initialTemplate
  else if String.eqb type "followUp" then Text followUpTemplate
  else if String.eqb type "warm" then Text warmTemplate
  else if existsb (String.eqb type) objectPrototypeNames then Inherited
  else Undefined.

Definition topics : list string :=
  ["AI"; "automation"; "SaaS"; "marketing"; "sales"; "product"; "growth";
   "technology"; "startups"].

(** The loop returns the first topic found in the content. *)
Definition extractTopicFromTweet (content : string) : string :=
  match find (fun topic =>
                JsString.includes (JsString.toLowerCase content)
                  (JsString.toLowerCase topic)) topics with
  | Some topic => topic
  | None => "tech trends"
  end.

Definition extractInsight (text : string) : string :=
  let sentences :=
    filter (fun s => (10 <? String.length (JsString.trim s))%nat)
      (JsString.split "." text) in
  match sentences with
  | first :: _ => JsString.take 50 (JsString.trim first) ++ "..."
  | [] => "your perspective"
  end.

(** [generateDMMessage(type, lead, tweetData = null)]; the result [None] is
    [null].  When the looked-up template is inherited from
    [Object.prototype] it is truthy but has no [replace] method: nothing
    that can fail or be observed happens before the first
    [message.replace(...)] call is reached (the last two are unconditional),
    and that call throws a [TypeError]. *)
Definition generateDMMessage (type : string) (lead : Lead)
           (tweetData : option Tweet) : Js (option string) :=
  match dmTemplates type with
  | Undefined => ret None
  | Inherited => throw TypeError
  | Text template =>
      let message := template in
      let message :=
        match username lead with
        | Some (String _ _ as name) =>
            JsString.replaceAll "{{username}}" name message
        | _ => message
        end in
      let message :=
        match optChain tweetData text with
        | Some (Some (String _ _ as content)) =>
            let threadTopic := extractTopicFromTweet content in
            let specificInsight := extractInsight content in
            JsString.replace "{{specificInsight}}" specificInsight
              (JsString.replace "{{threadTopic}}" threadTopic message)
        | _ => message
        end in
      let message :=
        match keywords lead with
        | Some (first :: _) =>
            JsString.replace "{{field}}" first
              (JsString.replace "{{topic}}" first message)
        | _ => message
        end in
      let message := JsString.replace "{{solution}}" "AI automation tools" message in
      let message := JsString.replace "{{value}}" "some insights" message in
      ret (Some message)
  end.

(* ================================================================== *)
(** ** Vocabulary of the properties *)

(** [evaluates m ds v]: [m] performs exactly the divisions [ds] and
    completes normally with [v]. *)
Definition evaluates {A} (m : Js A) (ds : list (option Z)) (v : A) : Prop :=
  m = mkJs ds (Normal v).

(** A division is guarded when its denominator is a positive number. *)
Definition positiveDivisor (d : option Z) : Prop :=
  match d with
  | Some n => 0 < n
  | None => False
  end.

(** The value of the callback given to [recentTweets.some]. *)
Definition wellReceived (tweet : Tweet) : bool :=
  match engagement tweet with
  | Some e => gt (likes e) 3 || gt (comments e) 0
  | None => false
  end.

(** The sequence in which the research step is present iff [r], the follow
    step iff [e], the like step iff [e] and [c], the DM step iff [d]. *)
Definition assemble (r e c d : bool) : list Step :=
  ((if r then [researchStep] else [])
   ++ (if e then followStep :: (if c then [likeStep] else []) else [])
   ++ (if d then [dmSendStep] else []))%list.

(** [lead.recentTweets && lead.recentTweets.length > 0]. *)
Definition hasRecentTweets (lead : Lead) : bool :=
  match recentTweets lead with
  | Some tweets => (0 <? List.length tweets)%nat
  | None => false
  end.

(** The quota entry that gates each action kind (the same association the
    executor, [sendTwitterOutreach], checks before performing a step). *)
Definition quotaFor (apiQuota : ApiQuota) (a : Action.t) : QuotaEntry :=
  match a with
  | Action.research => userLookup apiQuota
  | Action.follow => follow apiQuota
  | Action.like => like apiQuota
  | Action.dmSend => dmSend apiQuota
  end.

(** The position of an action kind in the order research, follow, like,
    dmSend. *)
Definition position (a : Action.t) : nat :=
  match a with
  | Action.research => 0
  | Action.follow => 1
  | Action.like => 2
  | Action.dmSend => 3
  end.

(** *** Concrete inputs *)

Definition day : Z := 24 * 60 * 60 * 1000.

(** The scenario lead of the specification, last active two days before
    [now]. *)
Definition sarah_tech (now : Z) : Lead := {|
  username := Some "sarah_tech";
  bio := None;
  followerCount := Some 2500;
  recentTweets :=
    Some [ {| text := None;
              engagement := Some {| likes := Some 45; comments := Some 8 |} |} ];
  lastActivity := Some (now - 2 * day);
  keywords := Some ["AI"; "automation"];
  hasEngagedWithUs := Some true;
  mutualConnections := Some ["a"; "b"]
|}.

(** The quota of the repository's test script. *)
Definition mockQuota : ApiQuota := {|
  userLookup := {| remaining := 25; used := 5; limit := 30 |};
  tweetLookup := {| remaining := 15; used := 5; limit := 20 |};
  follow := {| remaining := 12; used := 3; limit := 15 |};
  like := {| remaining := 20; used := 5; limit := 25 |};
  dmSend := {| remaining := 4; used := 1; limit := 5 |}
|}.

(** The same quota with the user-lookup allowance used up. *)
Definition noLookupQuota : ApiQuota := {|
  userLookup := {| remaining := 0; used := 30; limit := 30 |};
  tweetLookup := tweetLookup mockQuota;
  follow := follow mockQuota;
  like := like mockQuota;
  dmSend := dmSend mockQuota
|}.

(** A lead outside the follower band, with one well-liked recent post and
    nothing else: 600 likes over 60000 followers, an engagement rate of 1%. *)
Definition popular_account : Lead := {|
  username := Some "popular_account";
  bio := None;
  followerCount := Some 60000;
  recentTweets :=
    Some [ {| text := Some "Shipping again";
              engagement := Some {| likes := Some 600; comments := Some 0 |} |} ];
  lastActivity := None;
  keywords := None;
  hasEngagedWithUs := None;
  mutualConnections := None
|}.

(** A lead one of whose keyword tags is a spam marker. *)
Definition tagged_bot : Lead := {|
  username := Some "sarah_tech";
  bio := None;
  followerCount := Some 2500;
  recentTweets := None;
  lastActivity := None;
  keywords := Some ["AI"; "bot"];
  hasEngagedWithUs := None;
  mutualConnections := None
|}.

(** *** The predicates as the specification words them *)

(** [Substring p s]: [p] occurs in [s]. *)
Definition Substring (p s : string) : Prop :=
  exists a b, s = a ++ p ++ b.

Module Claimed.

(** The six criteria of worthEngaging, in the order of the specification. *)

(** Has at least one recent post. *)
Definition hasRecentPost (lead : Lead) : bool :=
  match recentTweets lead with
  | Some (_ :: _) => true
  | _ => false
  end.

(** At least one recent post has more than 3 likes or more than 0
    comments. *)
Definition aboveFloor (tweet : Tweet) : bool :=
  match engagement tweet with
  | Some e => gt (likes e) 3 || gt (comments e) 0
  | None => false
  end.

Definition hasPostAboveFloor (lead : Lead) : bool :=
  match recentTweets lead with
  | Some tweets => existsb aboveFloor tweets
  | None => false
  end.

(** Has at least one keyword tag. *)
Definition hasKeywordTag (lead : Lead) : bool :=
  match keywords lead with
  | Some (_ :: _) => true
  | _ => false
  end.

(** Most recent activity within the recency window of 7 days. *)
Definition recentlyActive (now : Z) (lead : Lead) : bool :=
  match lastActivity lead with
  | Some last => now - last <? 7 * day
  | None => false
  end.

(** Follower count within the band [100, 50000]. *)
Definition inFollowerBand (lead : Lead) : bool :=
  match followerCount lead with
  | Some followers => (100 <=? followers) && (followers <=? 50000)
  | None => false
  end.

(** Engagement rate: sum of recent-post like counts divided by follower
    count. *)
Definition engagementRate (lead : Lead) : option Q :=
  match recentTweets lead, followerCount lead with
  | Some tweets, Some followers =>
      if 0 <? followers
      then Some (Qdiv (inject_Z (fold_left (fun total tweet =>
                                               total + likesOrZero tweet) tweets 0))
                   (inject_Z followers))
      else None
  | _, _ => None
  end.

(** The engagement rate is at least [minimum]. *)
Definition rateAtLeast (minimum : Q) (lead : Lead) : bool :=
  match engagementRate lead with
  | Some rate => Qle_bool minimum rate
  | None => false
  end.

Definition engagementCriteria (minimum : Q) (now : Z) (lead : Lead) : list bool :=
  [hasRecentPost lead; hasPostAboveFloor lead; hasKeywordTag lead;
   recentlyActive now lead; inFollowerBand lead; rateAtLeast minimum lead].

(** worthEngaging: at least 3 of the 6 criteria hold, the engagement-rate
    minimum being 0.5%, that is 0.005. *)
Definition worthEngaging (now : Z) (lead : Lead) : bool :=
  (3 <=? countMet (engagementCriteria (5 # 1000) now lead))%nat.

(** The spam criterion: no keyword tag or text field (handle, bio) contains
    a marker of the exclude-list. *)
Definition noSpamMarker (lead : Lead) : bool :=
  let tags := match keywords lead with Some l => l | None => [] end in
  let fields :=
    (match username lead with Some u => [u] | None => [] end
     ++ match bio lead with Some b => [b] | None => [] end)%list in
  negb (existsb
          (fun marker =>
             existsb (fun t => JsString.includes (JsString.toLowerCase t) marker)
               (tags ++ fields)%list)
          (excludeKeywords targetingCriteria)).

(** At least one keyword tag matches, as a case-insensitive substring, the
    relevant-topic list. *)
Definition relevantTag (lead : Lead) : bool :=
  match keywords lead with
  | Some tags =>
      existsb (fun tag =>
                 existsb (fun topic =>
                            JsString.includes (JsString.toLowerCase tag)
                              (JsString.toLowerCase topic))
                   (relevantKeywords targetingCriteria)) tags
  | None => false
  end.

(** worthResearching: all three of non-empty handle, no spam marker,
    relevant tag. *)
Definition worthResearching (lead : Lead) : bool :=
  truthyString (username lead) && noSpamMarker lead && relevantTag lead.


End Claimed.

(** *** Rendering *)

(** Text without [$] (which a replacement text would have interpreted) and
    without an opening brace (which could start a placeholder). *)
Fixpoint plainText (s : string) : bool :=
  match s with
  | EmptyString => true
  | String c s' =>
      negb (Ascii.eqb c "$") && negb (Ascii.eqb c "{") && plainText s'
  end.

(** A lead with no recent posts. *)
Definition quiet_lead : Lead := {|
  username := Some "sarah_tech";
  bio := None;
  followerCount := Some 2500;
  recentTweets := Some [];
  lastActivity := None;
  keywords := Some ["AI"; "automation"];
  hasEngagedWithUs := None;
  mutualConnections := None
|}.

(* ================================================================== *)
(** ** Further operations of the strategy *)

(** *** Engagement messages *)

(** The lead as [generateEngagementMessage] reads it: the fields of [Lead]
    and the [industry] property. *)
Record Prospect : Type := {
  lead_of : Lead;
  industry : option string
}.

(** The pictographs that end the [follow] template and make up the [like]
    template.  They lie outside the code units 0..255 and no operation of
    the renderer looks inside them; they are parameters. *)
Record Pictographs : Type := {
  wavingHand : string;
  thumbsUp : string
}.

(** [this.engagementTemplates[action]], with the same three outcomes as
    [dmTemplates]. *)
Definition engagementTemplates (p : Pictographs) (action : string) : Property :=
  if String.eqb action "follow" then
    Text ("Following for your insights on {{topic}}! " ++ wavingHand p)
  else if String.eqb action "like" then Text (thumbsUp p)
  else if String.eqb action "reply" then
    Text "{{insight}} - really resonates with my experience in {{field}}."
  else if String.eqb action "retweet" then
    Text "RT @{{username}}: {{tweetText}} // {{comment}}"
  else if existsb (String.eqb action) objectPrototypeNames then Inherited
  else Undefined.

(** What [generateEngagementMessage] returns when it does not return
    [null]: a message, or the inherited member of [Object.prototype] that
    the lookup found, handed back untouched. *)
Inductive Rendered : Type :=
| Message (text : string)
| PrototypeMember.

(** [generateEngagementMessage(action, lead, tweetData = null)].  A missing
    template and an empty one are both falsy and give [null].  All three
    replacements are conditional.  On an inherited member the first
    replacement that is attempted throws a [TypeError] ([replace] is not a
    function of it); when none is attempted the member itself is
    returned. *)
Definition generateEngagementMessage (p : Pictographs) (action : string)
           (prospect : Prospect) (tweetData : option Tweet)
  : Js (option Rendered) :=
  let hasTopic :=
    match keywords (lead_of prospect) with
    | Some (_ :: _) => true
    | _ => false
    end in
  let hasText := truthyString (match optChain tweetData text with
                               | Some t => t
                               | None => None
                               end) in
  let hasIndustry := truthyString (industry prospect) in
  match engagementTemplates p action with
  | Undefined => ret None
  | Inherited =>
      if hasTopic || hasText || hasIndustry
      then throw TypeError
      else ret (Some PrototypeMember)
  | Text EmptyString => ret None
  | Text template =>
      let message := template in
      let message :=
        match keywords (lead_of prospect) with
        | Some (first :: _) => JsString.replace "{{topic}}" first message
        | _ => message
        end in
      let message :=
        match optChain tweetData text with
        | Some (Some (String _ _ as content)) =>
            let insight := extractInsight content in
            JsString.replace "{{insight}}" insight message
        | _ => message
        end in
      let message :=
        match industry prospect with
        | Some (String _ _ as field) => JsString.replace "{{field}}" field message
        | _ => message
        end in
      ret (Some (Message message))
  end.

(** *** Search queries *)

(** [getAdvancedSearchQueries(targetAudience)]: [queries.push] appends. *)
Definition getAdvancedSearchQueries (targetAudience : string) : list string :=
  let queries : list string := [] in
  let queries :=
    if String.eqb targetAudience "marketers"
    then (queries
          ++ ["filter:links from:randfish OR from:neilpatel OR from:brianclark"])%list
    else queries in
  let queries :=
    if String.eqb targetAudience "developers"
    then (queries ++ ["filter:links from:github OR from:stackoverflow"])%list
    else queries in
  let queries :=
    if String.eqb targetAudience "entrepreneurs"
    then (queries
          ++ ["filter:links from:naval OR from:paulg OR from:ycombinator"])%list
    else queries in
  (queries ++ ["AI automation (filter:links)"; "SaaS growth (filter:links)";
               "startup marketing (filter:links)"])%list.

(** *** The executor's guards *)

(** The condition under which the loop of [sendTwitterOutreach] performs a
    step of the sequence: the test inside each [case] of its [switch]. *)
Definition executorGuard (lead : Lead) (quota : ApiQuota) (a : Action.t) : bool :=
  match a with
  | Action.follow => 0 <? remaining (follow quota)
  | Action.like =>
      (0 <? remaining (like quota))
      && match recentTweets lead with
         | Some tweets => (0 <? List.length tweets)%nat
         | None => false
         end
  | Action.research => 0 <? remaining (userLookup quota)
  | Action.dmSend => 0 <? remaining (dmSend quota)
  end.

(** The action kinds of the nine sequences the builder can return. *)
Definition possibleSequences : list (list Action.t) :=
  [ [];
    [Action.research];
    [Action.follow];
    [Action.follow; Action.like];
    [Action.research; Action.follow];
    [Action.research; Action.follow; Action.like];
    [Action.research; Action.follow; Action.dmSend];
    [Action.follow; Action.like; Action.dmSend];
    [Action.research; Action.follow; Action.like; Action.dmSend] ].

(** A quota built from the four remaining counts the builder reads. *)
Definition quotaOf (lookup fol lik dm : Z) : ApiQuota := {|
  userLookup := {| remaining := lookup; used := 30 - lookup; limit := 30 |};
  tweetLookup := {| remaining := 20; used := 0; limit := 20 |};
  follow := {| remaining := fol; used := 15 - fol; limit := 15 |};
  like := {| remaining := lik; used := 25 - lik; limit := 25 |};
  dmSend := {| remaining := dm; used := 5 - dm; limit := 5 |}
|}.

(** The scenario lead without recent tweets. *)
Definition sarah_without_tweets (now : Z) : Lead := {|
  username := Some "sarah_tech";
  bio := None;
  followerCount := Some 2500;
  recentTweets := None;
  lastActivity := Some (now - 2 * day);
  keywords := Some ["AI"; "automation"];
  hasEngagedWithUs := Some true;
  mutualConnections := Some ["a"; "b"]
|}.

(* ================================================================== *)
(** ** The Twitter client: quota tracking and its own qualification *)

(** The keys of [freeTierLimits] and of [apiCallCount], in the order the
    constructor lists them. *)
Module Key.
Inductive t : Type := userLookup | tweetLookup | dmSend | follow | like.

Definition name (k : t) : string :=
  match k with
  | userLookup => "userLookup"
  | tweetLookup => "tweetLookup"
  | dmSend => "dmSend"
  | follow => "follow"
  | like => "like"
  end.

Definition all : list t := [userLookup; tweetLookup; dmSend; follow; like].
End Key.

(** [this.apiCallCount]. *)
Module ApiCallCount.
Record t : Type := {
  userLookup : Z;
  tweetLookup : Z;
  dmSend : Z;
  follow : Z;
  like : Z
}.
End ApiCallCount.

Module TwitterDMClient.

(** The mutable fields the rate limiter reads and writes.
    [lastResetDate] is absent until the first check. *)
Record State : Type := {
  messagesSent : Z;
  apiCallCount : ApiCallCount.t;
  lastResetDate : option string
}.

(** [this.freeTierLimits[key]]. *)
Definition freeTierLimits (k : Key.t) : Z :=
  match k with
  | Key.userLookup => 30
  | Key.tweetLookup => 20
  | Key.dmSend => 5
  | Key.follow => 15
  | Key.like => 25
  end.

(** [this.dailyLimits.messages]. *)
Definition dailyMessages : Z := 5.

(** [this.apiCallCount[key]]. *)
Definition count (k : Key.t) (c : ApiCallCount.t) : Z :=
  match k with
  | Key.userLookup => ApiCallCount.userLookup c
  | Key.tweetLookup => ApiCallCount.tweetLookup c
  | Key.dmSend => ApiCallCount.dmSend c
  | Key.follow => ApiCallCount.follow c
  | Key.like => ApiCallCount.like c
  end.

(** [this.apiCallCount[key]++]. *)
Definition increment (k : Key.t) (c : ApiCallCount.t) : ApiCallCount.t :=
  {| ApiCallCount.userLookup :=
       ApiCallCount.userLookup c + (match k with Key.userLookup => 1 | _ => 0 end);
     ApiCallCount.tweetLookup :=
       ApiCallCount.tweetLookup c + (match k with Key.tweetLookup => 1 | _ => 0 end);
     ApiCallCount.dmSend :=
       ApiCallCount.dmSend c + (match k with Key.dmSend => 1 | _ => 0 end);
     ApiCallCount.follow :=
       ApiCallCount.follow c + (match k with Key.follow => 1 | _ => 0 end);
     ApiCallCount.like :=
       ApiCallCount.like c + (match k with Key.like => 1 | _ => 0 end) |}.

(** The key an action string names, if any. *)
Definition keyOf (action : string) : option Key.t :=
  find (fun k => String.eqb action (Key.name k)) Key.all.

(** The state the constructor builds. *)
Definition initial : State := {|
  messagesSent := 0;
  apiCallCount := {| ApiCallCount.userLookup := 0; ApiCallCount.tweetLookup := 0;
                     ApiCallCount.dmSend := 0; ApiCallCount.follow := 0;
                     ApiCallCount.like := 0 |};
  lastResetDate := None
|}.

(** The first statement of [checkRateLimit]: on a day other than
    [lastResetDate] every counter is set to zero.  [today] is
    [new Date().toDateString()]. *)
Definition resetIfNewDay (today : string) (st : State) : State :=
  match lastResetDate st with
  | Some day => if String.eqb day today then st
                else {| messagesSent := 0; apiCallCount := apiCallCount initial;
                        lastResetDate := Some today |}
  | None => {| messagesSent := 0; apiCallCount := apiCallCount initial;
               lastResetDate := Some today |}
  end.

(** [checkRateLimit(action)]: the answer and the state it leaves.
    - For a key of the two tables, [limit] is a positive number and
      [used] the counter: the answer is false when [used >= limit];
      otherwise the counter is incremented and the [switch] answers through
      its [default] branch.
    - For a name inherited from [Object.prototype], [limit] and [used] are
      one and the same inherited member; it is truthy and [used >= limit]
      compares its string conversion with itself, which holds: the answer
      is false.
    - For any other name both lookups are [undefined]: nothing is counted,
      and the [switch] answers [messagesSent < dailyLimits.messages] for
      "message" and true otherwise.
    The console output of the refusal is not part of the model. *)
Definition checkRateLimit (today : string) (action : string) (st : State)
  : bool * State :=
  let st := resetIfNewDay today st in
  match keyOf action with
  | Some k =>
      let limit := freeTierLimits k in
      let usedSoFar := count k (apiCallCount st) in
      if negb (limit =? 0) && (limit <=? usedSoFar) then (false, st)
      else (true,
            {| messagesSent := messagesSent st;
               apiCallCount := increment k (apiCallCount st);
               lastResetDate := lastResetDate st |})
  | None =>
      if existsb (String.eqb action) objectPrototypeNames then (false, st)
      else if String.eqb action "message"
           then (messagesSent st <? dailyMessages, st)
           else (true, st)
  end.

(** A run of checks made on one day: each answer, paired with its action,
    and the final state. *)
Fixpoint checkAll (today : string) (actions : list string) (st : State)
  : list (string * bool) * State :=
  match actions with
  | [] => ([], st)
  | action :: rest =>
      let (answer, st1) := checkRateLimit today action st in
      let (answers, st2) := checkAll today rest st1 in
      ((action, answer) :: answers, st2)
  end.

(** The object [getRemainingQuota] returns: the message allowance, one
    entry per key ([entries] is the part the sequence builder reads) and
    the reset time, a day after [now]. *)
Record RemainingQuota : Type := {
  messages : Z;
  entries : ApiQuota;
  resetTime : Z
}.

Definition entryFor (st : State) (k : Key.t) : QuotaEntry :=
  let usedSoFar := count k (apiCallCount st) in
  {| remaining := Z.max 0 (freeTierLimits k - usedSoFar);
     used := usedSoFar;
     limit := freeTierLimits k |}.

Definition getRemainingQuota (now : Z) (st : State) : RemainingQuota := {|
  messages := Z.max 0 (dailyMessages - messagesSent st);
  entries := {| userLookup := entryFor st Key.userLookup;
                tweetLookup := entryFor st Key.tweetLookup;
                follow := entryFor st Key.follow;
                like := entryFor st Key.like;
                dmSend := entryFor st Key.dmSend |};
  resetTime := now + 24 * 60 * 60 * 1000
|}.

(** [quota[key]]. *)
Definition entryOf (q : ApiQuota) (k : Key.t) : QuotaEntry :=
  match k with
  | Key.userLookup => userLookup q
  | Key.tweetLookup => tweetLookup q
  | Key.dmSend => dmSend q
  | Key.follow => follow q
  | Key.like => like q
  end.

(** Every counter lies between zero and its free-tier limit. *)
Definition withinLimits (st : State) : Prop :=
  forall k, 0 <= count k (apiCallCount st) <= freeTierLimits k.

(** The number of granted checks that name the key [k]. *)
Fixpoint granted (k : Key.t) (answers : list (string * bool)) : Z :=
  match answers with
  | [] => 0
  | (action, answer) :: rest =>
      (if answer && String.eqb action (Key.name k) then 1 else 0) + granted k rest
  end.

(** The counter that stands behind each action kind of a sequence. *)
Definition keyFor (a : Action.t) : Key.t :=
  match a with
  | Action.research => Key.userLookup
  | Action.follow => Key.follow
  | Action.like => Key.like
  | Action.dmSend => Key.dmSend
  end.

(** *** The client's own qualification *)

(** The list inside [hasRelevantKeywords]. *)
Definition relevantKeywords : list string :=
  ["AI"; "automation"; "SaaS"; "marketing"; "sales"; "growth"; "startup";
   "tech"; "product"].

(** [hasRelevantKeywords(content)]: false for absent or empty content. *)
Definition hasRelevantKeywords (content : option string) : bool :=
  match content with
  | Some (String _ _ as c) =>
      existsb (fun keyword =>
                 JsString.includes (JsString.toLowerCase c)
                   (JsString.toLowerCase keyword))
        relevantKeywords
  | _ => false
  end.

Definition spamIndicators : list string :=
  ["spam"; "bot"; "fake"; "buy followers"; "get followers"; "follow back"].

(** [v || '']. *)
Definition orEmpty (v : option string) : string :=
  match v with
  | Some s => s
  | None => ""
  end.

(** [hasSpamIndicators(username, bio)]: the two texts are joined by a
    space and lower-cased before the search. *)
Definition hasSpamIndicators (username bio : option string) : bool :=
  if negb (truthyString username) && negb (truthyString bio) then false
  else
    let content := JsString.toLowerCase (orEmpty username ++ " " ++ orEmpty bio) in
    existsb (fun indicator => JsString.includes content indicator) spamIndicators.

(** The [userData] argument of [isHighlyQualifiedForDM]. *)
Record UserData : Type := {
  username : option string;
  bio : option string;
  followerCount : option Z
}.

(** The fields of the object literal [criteria] of
    [isHighlyQualifiedForDM], in order.  The minimum rate 0.01 is taken as
    the rational 1/100: for counts below 2^53 the rounded quotient reaches
    the double nearest to 0.01 exactly when the exact quotient reaches
    1/100. *)
Module forDM.

Definition reasonableFollowers (userData : UserData) : Js bool :=
  ret (ge (followerCount userData) 100 && le (followerCount userData) 50000).

Definition goodEngagementRate (userData : UserData) (leadData : Lead) : Js bool :=
  if gt (followerCount userData) 0
  then rate <- divide (totalLikes leadData) (followerCount userData) ;;
       ret (geNum rate (1 # 100))
  else ret false.

Definition recentActivity (now : Z) (leadData : Lead) : Js bool :=
  activeWithin 3 now leadData.

Definition relevantContent (userData : UserData) (leadData : Lead) : Js bool :=
  if hasRelevantKeywords (bio userData) then ret true
  else if defined (recentTweets leadData)
       then member (recentTweets leadData)
              (existsb (fun tweet => hasRelevantKeywords (text tweet)))
       else ret false.

Definition noSpamIndicators (userData : UserData) : Js bool :=
  ret (negb (hasSpamIndicators (username userData) (bio userData))).

Definition hasEngagedWithUs (leadData : Lead) : Js bool :=
  ret (truthyBool (hasEngagedWithUs leadData) || false).

Definition hasMutualConnections (leadData : Lead) : Js bool :=
  if defined (mutualConnections leadData)
  then len <- member (mutualConnections leadData) (@List.length string) ;;
       ret (0 <? len)%nat
  else ret false.

End forDM.

(** [isHighlyQualifiedForDM(userData, leadData)]: at least 4 of the 7
    criteria. *)
Definition isHighlyQualifiedForDM (now : Z) (userData : UserData)
           (leadData : Lead) : Js bool :=
  reasonableFollowers <- forDM.reasonableFollowers userData ;;
  goodEngagementRate <- forDM.goodEngagementRate userData leadData ;;
  recentActivity <- forDM.recentActivity now leadData ;;
  relevantContent <- forDM.relevantContent userData leadData ;;
  noSpamIndicators <- forDM.noSpamIndicators userData ;;
  hasEngagedWithUs <- forDM.hasEngagedWithUs leadData ;;
  hasMutualConnections <- forDM.hasMutualConnections leadData ;;
  let metCriteria :=
    countMet [reasonableFollowers; goodEngagementRate; recentActivity;
              relevantContent; noSpamIndicators; hasEngagedWithUs;
              hasMutualConnections] in
  ret (4 <=? metCriteria)%nat.

(** The lead that [userData] and [leadData] describe together, as the
    strategy would read it. *)
Definition asLead (userData : UserData) (leadData : Lead) : Lead :=
  Build_Lead (username userData) (bio userData) (followerCount userData)
    (recentTweets leadData) (lastActivity leadData) (keywords leadData)
    (hasEngagedWithUs leadData) (mutualConnections leadData).

End TwitterDMClient.

(* ================================================================== *)
(** ** Counts that doubles hold exactly *)

(** Doubles hold every whole number up to 2^53. *)
Definition exactCountBound : Z := 2 ^ 53.

(** The counts an engagement rate is computed from lie where the double
    arithmetic of the source is exact: the follower count is at most 2^53,
    and the like counts are not negative and add up to at most 2^53.  On
    such counts the source's sum of doubles is the sum of the whole
    numbers, and its rounded quotient reaches 0.5, 1.0 or the double
    nearest to 0.01 exactly when the quotient of the whole numbers reaches
    1/2, 1 or 1/100.  Beyond them the sum of doubles rounds, and the
    embedding does not follow it. *)
Definition countsAreExact (followers : option Z) (lead : Lead) : bool :=
  match followers with
  | Some n => n <=? exactCountBound
  | None => true
  end
  && match recentTweets lead with
     | Some tweets => forallb (fun tweet => 0 <=? likesOrZero tweet) tweets
     | None => true
     end
  && match totalLikes lead with
     | Some total => total <=? exactCountBound
     | None => true
     end.

(* ================================================================== *)
(** ** The dispatcher *)

Module DMDispatcherAgent.

(** How [sendTwitterOutreach] goes on once the sequence is planned: it
    returns a skipped record with a reason, or enters the loop that
    executes the sequence; an error raised on the way is caught and thrown
    again as "Twitter outreach failed". *)
Inductive Dispatch : Type :=
| skipped (reason : string)
| executes (sequence : list Step)
| failed.

(** [sendTwitterOutreach(lead, campaign)] up to its execution loop.  The
    clock is read by the gate ([nowGate]), by [getRemainingQuota]
    ([nowQuota]) and twice by the sequence builder. *)
Definition sendTwitterOutreach (nowGate nowQuota nowEngaging nowQualified : Z)
           (lead : Lead) (twitterClient : TwitterDMClient.State) : Dispatch :=
  match completion (isWorthEngaging nowGate lead) with
  | Throw _ => failed
  | Normal false => skipped "low_engagement_potential"
  | Normal true =>
      let quota :=
        TwitterDMClient.entries
          (TwitterDMClient.getRemainingQuota nowQuota twitterClient) in
      match completion (getOutreachSequence nowEngaging nowQualified lead quota) with
      | Throw _ => failed
      | Normal [] => skipped "no_api_quota"
      | Normal sequence => executes sequence
      end
  end.

End DMDispatcherAgent.

(** A lead without a handle, last active at time 0: it has a keyword tag
    and a follower count inside the band, and no recent tweet, so that it
    is worth engaging exactly as long as its last activity is recent. *)
Definition lapsing_lead : Lead := {|
  username := None;
  bio := None;
  followerCount := Some 1000;
  recentTweets := Some [];
  lastActivity := Some 0;
  keywords := Some ["design"];
  hasEngagedWithUs := None;
  mutualConnections := None
|}.

(* ================================================================== *)
(** ** Reasoning about evaluations *)

Lemma bind_ret_l A B (a : A) (k : A -> Js B) : bind (ret a) k = k a.
Proof. unfold bind; simpl. destruct (k a); reflexivity. Qed.

Lemma evaluates_bind A B (m : Js A) (k : A -> Js B) ds ds' v w :
  evaluates m ds v -> evaluates (k v) ds' w ->
  evaluates (bind m k) (ds ++ ds')%list w.
Proof.
  unfold evaluates; intros -> Hk. unfold bind; simpl. rewrite Hk. reflexivity.
Qed.

Lemma someM_wellReceived (tweets : list Tweet) :
  someM (fun tweet =>
           if defined (engagement tweet)
           then l <- member (engagement tweet) likes ;;
                if gt l 3 then ret true
                else c <- member (engagement tweet) comments ;; ret (gt c 0)
           else ret false) tweets
  = ret (existsb wellReceived tweets).
Proof.
  induction tweets as [|tweet tweets IH]; [reflexivity|].
  cbn [someM existsb]. unfold wellReceived at 1.
  destruct (engagement tweet) as [e|]; cbn [defined member].
  - rewrite !bind_ret_l. destruct (gt (likes e) 3); cbn [orb].
    + rewrite bind_ret_l. reflexivity.
    + rewrite !bind_ret_l. destruct (gt (comments e) 0); [reflexivity|exact IH].
  - rewrite bind_ret_l. exact IH.
Qed.

(** *** Values of the basic criteria *)

Lemma hasUsername_value lead :
  basicCriteria.hasUsername lead = ret (truthyString (username lead)).
Proof.
  unfold basicCriteria.hasUsername.
  destruct (username lead) as [[|c s]|]; reflexivity.
Qed.

Lemma hasRelevantKeywords_value lead :
  basicCriteria.hasRelevantKeywords lead
  = ret (match keywords lead with
         | Some tags =>
             existsb (fun keyword =>
                        existsb (fun relevant =>
                                   JsString.includes (JsString.toLowerCase keyword)
                                     (JsString.toLowerCase relevant))
                          (relevantKeywords targetingCriteria)) tags
         | None => false
         end).
Proof.
  unfold basicCriteria.hasRelevantKeywords.
  destruct (keywords lead); reflexivity.
Qed.

Lemma isWorthResearching_value lead :
  exists a b c,
    basicCriteria.hasUsername lead = ret a
    /\ basicCriteria.noSpamKeywords lead = ret b
    /\ basicCriteria.hasRelevantKeywords lead = ret c
    /\ isWorthResearching lead = ret (a && b && c).
Proof.
  unfold isWorthResearching.
  rewrite hasUsername_value, hasRelevantKeywords_value.
  unfold basicCriteria.noSpamKeywords.
  do 3 eexists. repeat split.
  rewrite !bind_ret_l. cbn [forallb]. rewrite andb_true_r, andb_assoc. reflexivity.
Qed.

(** *** Values of the engagement and strict criteria *)

Lemma hasRecentActivity_value lead :
  criteria.hasRecentActivity lead
  = ret (match recentTweets lead with
         | Some tweets => (0 <? List.length tweets)%nat
         | None => false
         end).
Proof.
  unfold criteria.hasRecentActivity. destruct (recentTweets lead); reflexivity.
Qed.

Lemma goodEngagement_value lead :
  criteria.goodEngagement lead
  = ret (match recentTweets lead with
         | Some tweets => existsb wellReceived tweets
         | None => false
         end).
Proof.
  unfold criteria.goodEngagement.
  destruct (recentTweets lead) as [tweets|]; cbn [defined member]; [|reflexivity].
  rewrite bind_ret_l. apply someM_wellReceived.
Qed.

Lemma relevantContent_value lead :
  criteria.relevantContent lead
  = ret (match keywords lead with
         | Some tags => (0 <? List.length tags)%nat
         | None => false
         end).
Proof.
  unfold criteria.relevantContent. destruct (keywords lead); reflexivity.
Qed.

Lemma activeWithin_value days now lead :
  activeWithin days now lead
  = ret (match lastActivity lead with
         | Some last => now - last <? days * 24 * 60 * 60 * 1000
         | None => false
         end).
Proof.
  unfold activeWithin. destruct (lastActivity lead); reflexivity.
Qed.

Lemma mutualConnections_value lead :
  strictCriteria.mutualConnections lead
  = ret (match mutualConnections lead with
         | Some l => (0 <? List.length l)%nat
         | None => false
         end).
Proof.
  unfold strictCriteria.mutualConnections.
  destruct (mutualConnections lead); reflexivity.
Qed.

Lemma perfectMatch_value lead :
  strictCriteria.perfectMatch lead
  = ret (match keywords lead with
         | Some tags =>
             existsb (fun keyword =>
                        existsb (fun perfect =>
                                   JsString.includes (JsString.toLowerCase keyword)
                                     (JsString.toLowerCase perfect))
                          ["AI"; "automation"; "SaaS"]) tags
         | None => false
         end).
Proof.
  unfold strictCriteria.perfectMatch. destruct (keywords lead); reflexivity.
Qed.

(** The rate criterion either skips the division (guard false) or divides
    once, by the follower count, which the guard has found positive. *)
Lemma engagementRateAtLeast_value threshold lead :
  (gt (followerCount lead) 0 = false
   /\ engagementRateAtLeast threshold lead = ret false)
  \/ (exists n rate,
         followerCount lead = Some n /\ 0 < n
         /\ divide (totalLikes lead) (Some n) = mkJs [Some n] (Normal rate)
         /\ engagementRateAtLeast threshold lead
            = mkJs [Some n] (Normal (geNum rate threshold))).
Proof.
  unfold engagementRateAtLeast.
  destruct (followerCount lead) as [n|]; cbn [gt]; [|left; auto].
  destruct (0 <? n) eqn:Hn; [|left; auto].
  right. apply Z.ltb_lt in Hn. exists n. eexists.
  split; [reflexivity|]. split; [exact Hn|]. split; reflexivity.
Qed.

Lemma engagementRateAtLeast_evaluates threshold lead :
  exists ds v,
    evaluates (engagementRateAtLeast threshold lead) ds v
    /\ Forall positiveDivisor ds.
Proof.
  destruct (engagementRateAtLeast_value threshold lead)
    as [[_ H]|(n & rate & _ & Hn & _ & H)]; rewrite H.
  - exists [], false. split; [reflexivity|constructor].
  - exists [Some n], (geNum rate threshold). split; [reflexivity|].
    constructor; [exact Hn|constructor].
Qed.

(** *** The three predicates complete normally *)

Lemma isWorthEngaging_value now lead :
  exists ds v1 v2 v3 v4 v5 v6,
    criteria.hasRecentActivity lead = ret v1
    /\ criteria.goodEngagement lead = ret v2
    /\ criteria.relevantContent lead = ret v3
    /\ criteria.activeUser now lead = ret v4
    /\ criteria.reasonableFollowerCount lead = ret v5
    /\ evaluates (criteria.goodEngagementRate lead) ds v6
    /\ Forall positiveDivisor ds
    /\ evaluates (isWorthEngaging now lead) ds
         (3 <=? countMet [v1; v2; v3; v4; v5; v6])%nat.
Proof.
  destruct (engagementRateAtLeast_evaluates (minEngagement targetingCriteria) lead)
    as (ds & v6 & Hrate & Hds).
  exists ds. do 5 eexists. exists v6.
  split; [apply hasRecentActivity_value|].
  split; [apply goodEngagement_value|].
  split; [apply relevantContent_value|].
  split; [apply activeWithin_value|].
  split; [reflexivity|].
  split; [exact Hrate|]. split; [exact Hds|].
  unfold isWorthEngaging, criteria.activeUser.
  rewrite hasRecentActivity_value, goodEngagement_value, relevantContent_value,
    activeWithin_value.
  unfold criteria.reasonableFollowerCount. rewrite !bind_ret_l.
  rewrite <- (app_nil_r ds).
  eapply evaluates_bind; [exact Hrate|reflexivity].
Qed.

Lemma isHighlyQualified_value now lead :
  exists ds v1 v2 v3 v4 v5,
    strictCriteria.hasEngagedWithUs lead = ret v1
    /\ strictCriteria.mutualConnections lead = ret v2
    /\ evaluates (strictCriteria.highEngagementRate lead) ds v3
    /\ strictCriteria.veryRecentActivity now lead = ret v4
    /\ strictCriteria.perfectMatch lead = ret v5
    /\ Forall positiveDivisor ds
    /\ evaluates (isHighlyQualified now lead) ds
         (2 <=? countMet [v1; v2; v3; v4; v5])%nat.
Proof.
  destruct (engagementRateAtLeast_evaluates 1 lead) as (ds & v3 & Hrate & Hds).
  exists ds. do 2 eexists. exists v3. do 2 eexists.
  split; [reflexivity|].
  split; [apply mutualConnections_value|].
  split; [exact Hrate|].
  split; [apply activeWithin_value|].
  split; [apply perfectMatch_value|].
  split; [exact Hds|].
  unfold isHighlyQualified, strictCriteria.veryRecentActivity,
    strictCriteria.hasEngagedWithUs.
  rewrite mutualConnections_value, activeWithin_value, perfectMatch_value.
  rewrite !bind_ret_l.
  rewrite <- (app_nil_r ds).
  eapply evaluates_bind; [exact Hrate|].
  rewrite !bind_ret_l. reflexivity.
Qed.

Lemma isWorthResearching_total lead :
  exists v, isWorthResearching lead = ret v.
Proof.
  destruct (isWorthResearching_value lead) as (a & b & c & _ & _ & _ & H).
  eauto.
Qed.

Lemma isWorthEngaging_total now lead :
  exists ds v, evaluates (isWorthEngaging now lead) ds v /\ Forall positiveDivisor ds.
Proof.
  destruct (isWorthEngaging_value now lead)
    as (ds & v1 & v2 & v3 & v4 & v5 & v6 & _ & _ & _ & _ & _ & _ & Hds & H).
  eauto.
Qed.

Lemma isHighlyQualified_total now lead :
  exists ds v, evaluates (isHighlyQualified now lead) ds v /\ Forall positiveDivisor ds.
Proof.
  destruct (isHighlyQualified_value now lead)
    as (ds & v1 & v2 & v3 & v4 & v5 & _ & _ & _ & _ & _ & Hds & H).
  eauto.
Qed.

(** *** The shape of every sequence *)

Lemma getOutreachSequence_shape nowEngaging nowQualified lead apiQuota :
  exists wr we hq ds1 ds2,
    isWorthResearching lead = ret wr
    /\ evaluates (isWorthEngaging nowEngaging lead) ds1 we
    /\ evaluates (isHighlyQualified nowQualified lead) ds2 hq
    /\ let r := (0 <? remaining (userLookup apiQuota)) && wr in
       let e := (0 <? remaining (follow apiQuota))
                && (0 <? remaining (like apiQuota)) && we in
       let c := hasRecentTweets lead && (0 <? remaining (like apiQuota)) in
       let d := (0 <? remaining (dmSend apiQuota)) && hq
                && (2 <=? List.length (assemble r e c false))%nat in
       completion (getOutreachSequence nowEngaging nowQualified lead apiQuota)
       = Normal (assemble r e c d)
       /\ Forall positiveDivisor
            (divisors (getOutreachSequence nowEngaging nowQualified lead apiQuota)).
Proof.
  destruct (isWorthResearching_total lead) as (wr & Hwr).
  destruct (isWorthEngaging_total nowEngaging lead) as (ds1 & we & Hwe & Hds1).
  destruct (isHighlyQualified_total nowQualified lead) as (ds2 & hq & Hhq & Hds2).
  exists wr, we, hq, ds1, ds2.
  split; [exact Hwr|]. split; [exact Hwe|]. split; [exact Hhq|].
  unfold getOutreachSequence, hasRecentTweets.
  rewrite Hwr, Hwe, Hhq.
  destruct (0 <? remaining (userLookup apiQuota));
    destruct (0 <? remaining (follow apiQuota));
    destruct (0 <? remaining (like apiQuota));
    destruct (0 <? remaining (dmSend apiQuota));
    destruct wr, we, hq;
    destruct (recentTweets lead) as [[|tweet tweets]|];
    cbn -[Z.ltb]; (split; [reflexivity|]);
    rewrite ?app_nil_r; repeat (apply Forall_app; split);
    solve [constructor | assumption].
Qed.

(** What the presence of each step says about the quota and the lead. *)
Lemma getOutreachSequence_flags nowEngaging nowQualified lead apiQuota :
  exists r e c d,
    completion (getOutreachSequence nowEngaging nowQualified lead apiQuota)
    = Normal (assemble r e c d)
    /\ (r = true ->
        0 < remaining (userLookup apiQuota)
        /\ completion (isWorthResearching lead) = Normal true)
    /\ (e = true ->
        0 < remaining (follow apiQuota) /\ 0 < remaining (like apiQuota)
        /\ completion (isWorthEngaging nowEngaging lead) = Normal true)
    /\ (c = true ->
        0 < remaining (like apiQuota) /\ hasRecentTweets lead = true)
    /\ (d = true ->
        0 < remaining (dmSend apiQuota)
        /\ completion (isHighlyQualified nowQualified lead) = Normal true
        /\ (2 <= List.length (assemble r e c false))%nat).
Proof.
  destruct (getOutreachSequence_shape nowEngaging nowQualified lead apiQuota)
    as (wr & we & hq & ds1 & ds2 & Hwr & Hwe & Hhq & Hseq & _).
  cbn zeta in Hseq. do 4 eexists. split; [exact Hseq|].
  rewrite Hwr, Hwe, Hhq. cbn [completion ret].
  repeat split;
    repeat match goal with
      | H : _ && _ = true |- _ => apply andb_prop in H as [? ?]
      | H : (_ <? _) = true |- _ => apply Z.ltb_lt in H
      | H : (_ <=? _)%nat = true |- _ => apply Nat.leb_le in H
      end;
    subst; auto.
Qed.

(* ================================================================== *)
(** ** Properties of the sequence builder *)

(** Splitting a sequence of at most four steps around one of its steps. *)
Ltac split_sequence H before :=
  destruct before as [|? [|? [|? [|? before]]]]; cbn [app] in H;
  inversion H; subst; clear H;
  try (exfalso; eapply app_cons_not_nil; eassumption).

Lemma assemble_dm_last r e c before st after :
  assemble r e c true = (before ++ st :: after)%list ->
  action st = Action.dmSend ->
  before = assemble r e c false /\ after = [].
Proof.
  intros H Hact.
  destruct r, e, c; cbn in H; split_sequence H before;
    try discriminate Hact; auto.
Qed.

Lemma assemble_no_dm r e c st :
  In st (assemble r e c false) -> action st <> Action.dmSend.
Proof.
  destruct r, e, c; cbn; intuition (subst; discriminate).
Qed.

(** C1.  Whatever the lead and the quota, [getOutreachSequence] returns a
    sequence in which every [dmSend] step has at least two steps before it,
    none of them a [dmSend] step, and [isHighlyQualified] returns true for
    the lead (at the clock reading the builder used). *)
Theorem dm_step_needs_two_predecessors_and_qualification
        (nowEngaging nowQualified : Z) (lead : Lead) (apiQuota : ApiQuota) :
  exists sequence,
    completion (getOutreachSequence nowEngaging nowQualified lead apiQuota)
    = Normal sequence
    /\ forall before st after,
        sequence = (before ++ st :: after)%list ->
        action st = Action.dmSend ->
        (2 <= List.length before)%nat
        /\ Forall (fun s => action s <> Action.dmSend) before
        /\ completion (isHighlyQualified nowQualified lead) = Normal true.
Proof.
  destruct (getOutreachSequence_flags nowEngaging nowQualified lead apiQuota)
    as (r & e & c & d & Hseq & _ & _ & _ & Hd).
  eexists. split; [exact Hseq|].
  intros before st after Hsplit Hact.
  destruct d.
  - destruct Hd as (_ & Hq & Hlen); [reflexivity|].
    destruct (assemble_dm_last _ _ _ _ _ _ Hsplit Hact) as [-> _].
    split; [exact Hlen|]. split; [|exact Hq].
    apply Forall_forall. intros s. apply assemble_no_dm.
  - exfalso. apply (assemble_no_dm r e c st); [|exact Hact].
    rewrite Hsplit. apply in_or_app. right. left. reflexivity.
Qed.

(** C1 at the scenario lead with the test quota: the DM step is the fourth
    step, three steps precede it and the lead is highly qualified. *)
Lemma dm_step_needs_two_predecessors_witness :
  completion (getOutreachSequence 0 0 (sarah_tech 0) mockQuota)
  = Normal ([researchStep; followStep; likeStep] ++ dmSendStep :: [])%list
  /\ (2 <= List.length [researchStep; followStep; likeStep])%nat
  /\ completion (isHighlyQualified 0 (sarah_tech 0)) = Normal true.
Proof.
  destruct (dm_step_needs_two_predecessors_and_qualification
              0 0 (sarah_tech 0) mockQuota) as (sequence & Hseq & Hdm).
  assert (E : sequence
              = ([researchStep; followStep; likeStep] ++ dmSendStep :: [])%list).
  { assert (H : completion (getOutreachSequence 0 0 (sarah_tech 0) mockQuota)
                = Normal [researchStep; followStep; likeStep; dmSendStep])
      by (vm_compute; reflexivity).
    rewrite H in Hseq. injection Hseq as <-. reflexivity. }
  destruct (Hdm _ _ _ E eq_refl) as (Hlen & _ & Hq).
  rewrite <- E. exact (conj Hseq (conj Hlen Hq)).
Defined.

(** C2.  Every step of the returned sequence has a positive remaining
    count in the quota entry of its action kind; hence an action kind whose
    remaining count is zero does not occur, and in particular no [dmSend]
    step occurs when [dmSend.remaining] is 0, whatever the lead. *)
Theorem exhausted_quota_excludes_action
        (nowEngaging nowQualified : Z) (lead : Lead) (apiQuota : ApiQuota) :
  exists sequence,
    completion (getOutreachSequence nowEngaging nowQualified lead apiQuota)
    = Normal sequence
    /\ Forall (fun st => 0 < remaining (quotaFor apiQuota (action st))) sequence
    /\ (forall kind,
           remaining (quotaFor apiQuota kind) = 0 ->
           ~ In kind (map action sequence))
    /\ (remaining (dmSend apiQuota) = 0 ->
        ~ In Action.dmSend (map action sequence)).
Proof.
  destruct (getOutreachSequence_flags nowEngaging nowQualified lead apiQuota)
    as (r & e & c & d & Hseq & Hr & He & Hc & Hd).
  eexists. split; [exact Hseq|].
  assert (Hpos : Forall (fun st => 0 < remaining (quotaFor apiQuota (action st)))
                   (assemble r e c d)).
  { apply Forall_forall. intros st Hin.
    destruct r, e, c, d; cbn in Hin;
      repeat match goal with
        | H : true = true -> _ |- _ => specialize (H eq_refl)
        | H : _ \/ _ |- _ => destruct H
        | H : False |- _ => destruct H
        end;
      subst; cbn; tauto. }
  split; [exact Hpos|].
  assert (Hzero : forall kind,
             remaining (quotaFor apiQuota kind) = 0 ->
             ~ In kind (map action (assemble r e c d))).
  { intros kind Hk Hin. apply in_map_iff in Hin as (st & <- & Hin).
    rewrite Forall_forall in Hpos. specialize (Hpos st Hin). lia. }
  split; [exact Hzero|].
  intros Hdm. apply (Hzero Action.dmSend). exact Hdm.
Qed.

(** C2 at the scenario lead when the DM allowance is used up: the
    sequence stops after the like step. *)
Lemma exhausted_quota_witness :
  ~ In Action.dmSend
      (map action [researchStep; followStep; likeStep])
  /\ completion
       (getOutreachSequence 0 0 (sarah_tech 0)
          {| userLookup := userLookup mockQuota;
             tweetLookup := tweetLookup mockQuota;
             follow := follow mockQuota;
             like := like mockQuota;
             dmSend := {| remaining := 0; used := 5; limit := 5 |} |})
     = Normal [researchStep; followStep; likeStep].
Proof.
  set (q := {| userLookup := userLookup mockQuota;
               tweetLookup := tweetLookup mockQuota;
               follow := follow mockQuota;
               like := like mockQuota;
               dmSend := {| remaining := 0; used := 5; limit := 5 |} |}).
  destruct (exhausted_quota_excludes_action 0 0 (sarah_tech 0) q)
    as (sequence & Hseq & _ & _ & Hdm).
  assert (H : completion (getOutreachSequence 0 0 (sarah_tech 0) q)
              = Normal [researchStep; followStep; likeStep])
    by (vm_compute; reflexivity).
  split; [|exact H].
  rewrite H in Hseq. injection Hseq as <-. apply Hdm. reflexivity.
Defined.

(** C6, as stated, fails: with the user-lookup allowance used up the
    scenario lead gets the sequence follow, like, dmSend, whose first step
    has priority rank 2. *)
Lemma first_priority_can_be_two :
  exists first rest,
    completion (getOutreachSequence 0 0 (sarah_tech 0) noLookupQuota)
    = Normal (first :: rest)
    /\ action first = Action.follow
    /\ priority first = 2
    /\ priority first <> 1.
Proof.
  exists followStep, [likeStep; dmSendStep].
  split; [vm_compute; reflexivity|].
  split; [reflexivity|]. split; [reflexivity|discriminate].
Qed.

(** C6, amended.  The priority ranks of the returned sequence are strictly
    increasing; every step carries the fixed rank of its action kind
    (research 1, follow 2, like 3, dmSend 4); the first step is a research
    or a follow step, and its rank is 1 exactly when it is the research
    step. *)
Theorem priorities_strictly_increase
        (nowEngaging nowQualified : Z) (lead : Lead) (apiQuota : ApiQuota) :
  exists sequence,
    completion (getOutreachSequence nowEngaging nowQualified lead apiQuota)
    = Normal sequence
    /\ StronglySorted Z.lt (map priority sequence)
    /\ Forall (fun st => priority st = Z.of_nat (position (action st)) + 1)
         sequence
    /\ forall first rest,
        sequence = first :: rest ->
        (action first = Action.research \/ action first = Action.follow)
        /\ (priority first = 1 <-> action first = Action.research).
Proof.
  destruct (getOutreachSequence_flags nowEngaging nowQualified lead apiQuota)
    as (r & e & c & d & Hseq & _ & _ & _ & Hd).
  eexists. split; [exact Hseq|].
  split; [|split].
  - destruct r, e, c, d; cbn; repeat constructor.
  - destruct r, e, c, d; cbn; repeat constructor.
  - intros first rest Hfirst.
    destruct d.
    + destruct Hd as (_ & _ & Hlen); [reflexivity|].
      destruct r, e, c; cbn in Hfirst, Hlen; try lia;
        injection Hfirst as <- _; cbn;
        (split; [auto|split; [auto; discriminate|auto; discriminate]]).
    + destruct r, e, c; cbn in Hfirst; try discriminate Hfirst;
        injection Hfirst as <- _; cbn;
        (split; [auto|split; [auto; discriminate|auto; discriminate]]).
Qed.

(** C6 amended, at the scenario lead: ranks 1, 2, 3, 4 with the test
    quota, and a research step in front. *)
Lemma priorities_strictly_increase_witness :
  completion (getOutreachSequence 0 0 (sarah_tech 0) mockQuota)
  = Normal (researchStep :: [followStep; likeStep; dmSendStep])
  /\ (priority researchStep = 1 <-> action researchStep = Action.research).
Proof.
  destruct (priorities_strictly_increase 0 0 (sarah_tech 0) mockQuota)
    as (sequence & Hseq & _ & _ & Hfirst).
  assert (H : completion (getOutreachSequence 0 0 (sarah_tech 0) mockQuota)
              = Normal (researchStep :: [followStep; likeStep; dmSendStep]))
    by (vm_compute; reflexivity).
  split; [exact H|].
  rewrite H in Hseq. injection Hseq as <-.
  exact (proj2 (Hfirst _ _ eq_refl)).
Defined.

(** C10.  The returned sequence has at most four steps, no action kind
    twice, its action kinds in the order research, follow, like, dmSend,
    and a follow step immediately before every like step. *)
Theorem sequence_is_ordered_without_repeats
        (nowEngaging nowQualified : Z) (lead : Lead) (apiQuota : ApiQuota) :
  exists sequence,
    completion (getOutreachSequence nowEngaging nowQualified lead apiQuota)
    = Normal sequence
    /\ (List.length sequence <= 4)%nat
    /\ NoDup (map action sequence)
    /\ StronglySorted (fun a b => (position a < position b)%nat)
         (map action sequence)
    /\ forall before st after,
        sequence = (before ++ st :: after)%list ->
        action st = Action.like ->
        exists earlier previous,
          before = (earlier ++ [previous])%list
          /\ action previous = Action.follow.
Proof.
  destruct (getOutreachSequence_flags nowEngaging nowQualified lead apiQuota)
    as (r & e & c & d & Hseq & _).
  eexists. split; [exact Hseq|].
  split; [|split; [|split]].
  - destruct r, e, c, d; cbn; lia.
  - destruct r, e, c, d; cbn; repeat constructor; cbn;
      intuition discriminate.
  - destruct r, e, c, d; cbn; repeat constructor; cbn; lia.
  - intros before st after Hsplit Hact.
    destruct r, e, c, d; cbn in Hsplit; split_sequence Hsplit before;
      try discriminate Hact;
      solve [ exists [], followStep; split; reflexivity
            | exists [researchStep], followStep; split; reflexivity ].
Qed.

(** C10 at the scenario lead: the like step is third, right after the
    follow step. *)
Lemma sequence_is_ordered_witness :
  completion (getOutreachSequence 0 0 (sarah_tech 0) mockQuota)
  = Normal ([researchStep; followStep] ++ likeStep :: [dmSendStep])%list
  /\ exists earlier previous,
      [researchStep; followStep] = (earlier ++ [previous])%list
      /\ action previous = Action.follow.
Proof.
  destruct (sequence_is_ordered_without_repeats 0 0 (sarah_tech 0) mockQuota)
    as (sequence & Hseq & _ & _ & _ & Hlike).
  assert (H : completion (getOutreachSequence 0 0 (sarah_tech 0) mockQuota)
              = Normal ([researchStep; followStep] ++ likeStep :: [dmSendStep])%list)
    by (vm_compute; reflexivity).
  split; [exact H|].
  rewrite H in Hseq. injection Hseq as <-.
  exact (Hlike [researchStep; followStep] likeStep [dmSendStep] eq_refl eq_refl).
Defined.

(* ================================================================== *)
(** ** The scenario lead *)

Lemma sarah_tech_activeWithin days now :
  activeWithin days now (sarah_tech now)
  = ret (2 * day <? days * 24 * 60 * 60 * 1000).
Proof.
  rewrite activeWithin_value. cbn [lastActivity sarah_tech].
  replace (now - (now - 2 * day)) with (2 * day) by ring. reflexivity.
Qed.

Lemma sarah_tech_isWorthResearching now :
  isWorthResearching (sarah_tech now) = ret true.
Proof. vm_compute. reflexivity. Qed.

Lemma sarah_tech_isWorthEngaging now :
  isWorthEngaging now (sarah_tech now) = mkJs [Some 2500] (Normal true).
Proof.
  unfold isWorthEngaging, criteria.activeUser.
  rewrite sarah_tech_activeWithin. vm_compute. reflexivity.
Qed.

Lemma sarah_tech_isHighlyQualified now :
  isHighlyQualified now (sarah_tech now) = mkJs [Some 2500] (Normal true).
Proof.
  unfold isHighlyQualified, strictCriteria.veryRecentActivity.
  rewrite sarah_tech_activeWithin. vm_compute. reflexivity.
Qed.

(** C5.  For the scenario lead (handle [sarah_tech], 2500 followers,
    keywords AI and automation, one recent post with 45 likes and 8
    comments, last active two days ago, has engaged, two mutual
    connections) and any quota whose remaining counts are all positive,
    the three predicates return true and the sequence is exactly research,
    follow, like, dmSend. *)
Theorem sarah_tech_scenario (now : Z) (apiQuota : ApiQuota)
        (HuserLookup : 0 < remaining (userLookup apiQuota))
        (HtweetLookup : 0 < remaining (tweetLookup apiQuota))
        (Hfollow : 0 < remaining (follow apiQuota))
        (Hlike : 0 < remaining (like apiQuota))
        (HdmSend : 0 < remaining (dmSend apiQuota)) :
  completion (isWorthResearching (sarah_tech now)) = Normal true
  /\ completion (isWorthEngaging now (sarah_tech now)) = Normal true
  /\ completion (isHighlyQualified now (sarah_tech now)) = Normal true
  /\ completion (getOutreachSequence now now (sarah_tech now) apiQuota)
     = Normal [researchStep; followStep; likeStep; dmSendStep]
  /\ map action [researchStep; followStep; likeStep; dmSendStep]
     = [Action.research; Action.follow; Action.like; Action.dmSend].
Proof.
  rewrite sarah_tech_isWorthResearching, sarah_tech_isWorthEngaging,
    sarah_tech_isHighlyQualified.
  repeat (split; [reflexivity|]). split; [|reflexivity].
  unfold getOutreachSequence.
  apply Z.ltb_lt in HuserLookup, Hfollow, Hlike, HdmSend.
  rewrite HuserLookup, Hfollow, Hlike, HdmSend.
  rewrite sarah_tech_isWorthResearching, sarah_tech_isWorthEngaging,
    sarah_tech_isHighlyQualified.
  reflexivity.
Qed.

(** C5 with the quota of the test script. *)
Lemma sarah_tech_scenario_witness :
  completion (getOutreachSequence 1754500000000 1754500000000
                (sarah_tech 1754500000000) mockQuota)
  = Normal [researchStep; followStep; likeStep; dmSendStep].
Proof.
  refine (proj1 (proj2 (proj2 (proj2
            (sarah_tech_scenario 1754500000000 mockQuota _ _ _ _ _)))));
    reflexivity.
Defined.

(* ================================================================== *)
(** ** Properties of the qualification predicates *)

(** The code's vote is the specified one with the engagement-rate minimum
    [minEngagement] = 0.5 applied to the quotient itself. *)
Lemma engagementRateAtLeast_completion threshold lead :
  completion (engagementRateAtLeast threshold lead)
  = Normal (Claimed.rateAtLeast threshold lead).
Proof.
  unfold engagementRateAtLeast, Claimed.rateAtLeast, Claimed.engagementRate,
    totalLikes.
  destruct (followerCount lead) as [n|]; cbn [gt];
    [|destruct (recentTweets lead); reflexivity].
  destruct (0 <? n) eqn:Hn; [|destruct (recentTweets lead); reflexivity].
  apply Z.ltb_lt in Hn.
  destruct (recentTweets lead) as [tweets|]; cbn [optChain divide bind completion
                                                   divisors ret geNum];
    [|reflexivity].
  destruct (n =? 0) eqn:Hz; [apply Z.eqb_eq in Hz; lia|reflexivity].
Qed.

Lemma bind_completion A B (m : Js A) (k : A -> Js B) a :
  completion m = Normal a -> completion (bind m k) = completion (k a).
Proof. intros H. unfold bind. rewrite H. reflexivity. Qed.

Lemma isWorthEngaging_votes now lead :
  completion (isWorthEngaging now lead)
  = Normal (3 <=? countMet (Claimed.engagementCriteria
                              (minEngagement targetingCriteria) now lead))%nat.
Proof.
  unfold isWorthEngaging, criteria.activeUser, criteria.reasonableFollowerCount,
    criteria.goodEngagementRate.
  rewrite hasRecentActivity_value, goodEngagement_value, relevantContent_value,
    activeWithin_value, !bind_ret_l.
  rewrite (bind_completion _ _ (engagementRateAtLeast_completion _ lead)).
  cbn [completion ret]. do 3 f_equal.
  unfold Claimed.engagementCriteria, Claimed.hasRecentPost,
    Claimed.hasPostAboveFloor, Claimed.hasKeywordTag, Claimed.recentlyActive,
    Claimed.inFollowerBand.
  repeat f_equal.
  - destruct (recentTweets lead) as [[|tweet tweets]|]; reflexivity.
  - destruct (keywords lead) as [[|tag tags]|]; reflexivity.
  - destruct (followerCount lead); reflexivity.
Qed.

(** C3.  At a lead with 600 likes over 60000 followers the engagement rate
    is 1%, which is at least 0.5%; with a recent post and a post above the
    floor, three of the six specified criteria hold and worthEngaging as
    specified is true.  [isWorthEngaging] returns false: the code compares
    the quotient itself, 0.01, with [minEngagement] = 0.5, so its sixth
    criterion fails. *)
Theorem isWorthEngaging_rate_threshold_is_a_half (now : Z) :
  Claimed.engagementCriteria (5 # 1000) now popular_account
  = [true; true; false; false; false; true]
  /\ Claimed.worthEngaging now popular_account = true
  /\ Claimed.engagementCriteria (minEngagement targetingCriteria) now
       popular_account
     = [true; true; false; false; false; false]
  /\ completion (criteria.goodEngagementRate popular_account) = Normal false
  /\ completion (isWorthEngaging now popular_account) = Normal false.
Proof.
  split; [reflexivity|]. split; [reflexivity|]. split; [reflexivity|].
  split; [reflexivity|].
  rewrite isWorthEngaging_votes. reflexivity.
Qed.

(** *** Substring search *)

Lemma prefix_spec (p s : string) :
  prefix p s = true <-> exists t, s = p ++ t.
Proof.
  revert s. induction p as [|c p IH]; intros s.
  - split; [intros _; exists s; reflexivity|intros _; destruct s; reflexivity].
  - destruct s as [|c' s]; cbn;
      [split; [discriminate|intros [t Ht]; discriminate]|].
    destruct (ascii_dec c c') as [->|Hne].
    + rewrite IH. split; intros [t Ht]; exists t.
      * rewrite Ht; reflexivity.
      * injection Ht as Ht; exact Ht.
    + split; [discriminate|]. intros [t Ht]. injection Ht as Hc _.
      exfalso; apply Hne; symmetry; exact Hc.
Qed.

Lemma includes_spec (s p : string) :
  JsString.includes s p = true <-> Substring p s.
Proof.
  unfold Substring. induction s as [|c s IH]; cbn [JsString.includes].
  - rewrite orb_false_r, prefix_spec. split.
    + intros [t Ht]. exists EmptyString, t. exact Ht.
    + intros (a & b & H). destruct a; [exists b; exact H|discriminate H].
  - rewrite orb_true_iff, prefix_spec, IH. split.
    + intros [[t Ht]|(a & b & H)].
      * exists EmptyString, t. exact Ht.
      * exists (String c a), b. rewrite H. reflexivity.
    + intros (a & b & H). destruct a as [|c' a].
      * left. exists b. exact H.
      * right. exists a, b. injection H as _ H. exact H.
Qed.

Lemma includes_false (s p : string) :
  JsString.includes s p = false <-> ~ Substring p s.
Proof.
  rewrite <- includes_spec. destruct (JsString.includes s p); split;
    intros H; try reflexivity; try discriminate;
    exfalso; apply H; reflexivity.
Qed.

(** *** worthResearching *)

(** C4, as stated, fails: the spam scan does not read the keyword tags.
    A lead tagged [bot] passes [isWorthResearching], although one of its
    keyword tags contains a spam marker. *)
Lemma spam_tag_is_not_scanned :
  keywords tagged_bot = Some ["AI"; "bot"]
  /\ In "bot" (excludeKeywords targetingCriteria)
  /\ Claimed.noSpamMarker tagged_bot = false
  /\ Claimed.worthResearching tagged_bot = false
  /\ completion (isWorthResearching tagged_bot) = Normal true.
Proof.
  repeat split; try (vm_compute; reflexivity).
  cbn. auto.
Qed.

(** C4, amended.  [isWorthResearching] returns, and returns true exactly
    when the lead has a non-empty handle, no marker of the exclude-list
    occurs in the lower-cased handle or the lower-cased bio (whichever are
    present), and some keyword tag contains, case-insensitively, a topic of
    the relevant-topic list.  With no keyword tags, or an empty list of
    them, it returns false. *)
Theorem isWorthResearching_iff (lead : Lead) :
  exists v,
    isWorthResearching lead = ret v
    /\ (v = true <->
        (exists handle, username lead = Some handle /\ handle <> "")
        /\ (forall marker field,
               In marker (excludeKeywords targetingCriteria) ->
               username lead = Some field \/ bio lead = Some field ->
               ~ Substring marker (JsString.toLowerCase field))
        /\ (exists tags tag topic,
               keywords lead = Some tags /\ In tag tags
               /\ In topic (relevantKeywords targetingCriteria)
               /\ Substring (JsString.toLowerCase topic)
                    (JsString.toLowerCase tag)))
    /\ (keywords lead = None \/ keywords lead = Some [] -> v = false).
Proof.
  eexists. split.
  { unfold isWorthResearching.
    rewrite hasUsername_value, hasRelevantKeywords_value.
    unfold basicCriteria.noSpamKeywords. rewrite !bind_ret_l. reflexivity. }
  cbn [forallb]. rewrite andb_true_r.
  split.
  - rewrite !andb_true_iff, negb_true_iff. split.
    + intros [Hu [Hspam Hrel]]. split; [|split].
      * destruct (username lead) as [[|ch handle]|]; try discriminate Hu.
        eexists. split; [reflexivity|discriminate].
      * intros marker field Hin Hfield.
        apply includes_false.
        destruct (JsString.includes (JsString.toLowerCase field) marker) eqn:Hinc;
          [|reflexivity].
        exfalso. apply not_true_iff_false in Hspam. apply Hspam.
        apply existsb_exists. exists marker. split; [exact Hin|].
        destruct Hfield as [-> | ->]; cbn [optChain truthyBool]; rewrite Hinc.
        -- reflexivity.
        -- apply orb_true_r.
      * destruct (keywords lead) as [tags|]; [|discriminate Hrel].
        apply existsb_exists in Hrel as (tag & Htag & Hrel).
        apply existsb_exists in Hrel as (topic & Htopic & Hrel).
        exists tags, tag, topic. repeat split; auto.
        apply includes_spec. exact Hrel.
    + intros ((handle & Hu & Hne) & Hspam & (tags & tag & topic & Hk & Htag & Htopic & Hsub)).
      split; [|split].
      * rewrite Hu. destruct handle; [contradiction|reflexivity].
      * apply not_true_iff_false. intros Hex.
        apply existsb_exists in Hex as (marker & Hin & Hex).
        apply orb_true_iff in Hex as [Hex|Hex].
        -- destruct (username lead) as [u|]; [|discriminate Hex].
           cbn in Hex. apply includes_spec in Hex.
           apply (Hspam marker u Hin); auto.
        -- destruct (bio lead) as [bi|]; [|discriminate Hex].
           cbn in Hex. apply includes_spec in Hex.
           apply (Hspam marker bi Hin); auto.
      * rewrite Hk. apply existsb_exists. exists tag. split; [exact Htag|].
        apply existsb_exists. exists topic. split; [exact Htopic|].
        apply includes_spec. exact Hsub.
  - intros [Hk|Hk]; rewrite Hk; cbn [existsb]; rewrite !andb_false_r; reflexivity.
Qed.

(** C4 amended, at the scenario lead: the three conditions hold, so the
    predicate returns true. *)
Lemma isWorthResearching_iff_witness :
  isWorthResearching (sarah_tech 0) = ret true.
Proof.
  destruct (isWorthResearching_iff (sarah_tech 0)) as (v & Hv & Hiff & _).
  replace v with true in Hv; [exact Hv|].
  symmetry. apply Hiff. split; [|split].
  - exists "sarah_tech". split; [reflexivity|discriminate].
  - intros marker field Hin [Hf|Hf]; [|discriminate Hf].
    injection Hf as <-. apply includes_false.
    cbn in Hin. destruct Hin as [<-|[<-|[<-|[<-|[]]]]]; vm_compute; reflexivity.
  - exists ["AI"; "automation"], "AI", "AI".
    split; [reflexivity|]. split; [cbn; auto|]. split; [cbn; auto|].
    apply includes_spec. vm_compute. reflexivity.
Defined.

(** *** Missing fields *)

Lemma engagementRateAtLeast_divisors threshold lead ds v :
  evaluates (engagementRateAtLeast threshold lead) ds v ->
  Forall positiveDivisor ds /\ (ds = [] \/ ds = [followerCount lead]).
Proof.
  intros H.
  destruct (engagementRateAtLeast_value threshold lead)
    as [[_ E]|(n & rate & Hn & Hpos & _ & E)];
    unfold evaluates in H; rewrite E in H; injection H as <- _.
  - split; [constructor|left; reflexivity].
  - split; [repeat constructor; exact Hpos|right; rewrite Hn; reflexivity].
Qed.

Lemma engagementRateAtLeast_without_tweets threshold lead :
  recentTweets lead = None ->
  completion (engagementRateAtLeast threshold lead) = Normal false.
Proof.
  intros Hnone. unfold engagementRateAtLeast, totalLikes. rewrite Hnone.
  destruct (gt (followerCount lead) 0); [|reflexivity].
  destruct (followerCount lead); reflexivity.
Qed.

Lemma engagementRateAtLeast_without_followers threshold lead :
  followerCount lead = None ->
  engagementRateAtLeast threshold lead = ret false.
Proof.
  intros Hnone. unfold engagementRateAtLeast. rewrite Hnone. reflexivity.
Qed.

(** C9, as stated, fails for the bio: an absent bio does not make the
    criterion that reads it fail.  The scenario lead has no bio, its
    [noSpamKeywords] criterion holds and [isWorthResearching] returns
    true. *)
Lemma absent_bio_passes_spam_scan :
  bio (sarah_tech 0) = None
  /\ completion (basicCriteria.noSpamKeywords (sarah_tech 0)) = Normal true
  /\ completion (basicCriteria.noSpamKeywords (sarah_tech 0)) <> Normal false
  /\ completion (isWorthResearching (sarah_tech 0)) = Normal true.
Proof.
  repeat split; try (vm_compute; reflexivity).
  vm_compute. discriminate.
Qed.

(** C9, amended.  For every lead, whichever fields are absent, the three
    predicates complete normally; a division is performed only by the
    engagement-rate criteria and only with the follower count as
    denominator, after it has been found strictly positive.  An absent
    handle, keyword list, recent-post list, last-activity date, follower
    count, mutual-connection list or engagement flag makes every criterion
    that requires it false.  The spam scan is the exception: it skips an
    absent handle or bio, so it holds when both are absent. *)
Theorem predicates_never_throw (now : Z) (lead : Lead) :
  (exists v, isWorthResearching lead = ret v)
  /\ (exists ds v,
         evaluates (isWorthEngaging now lead) ds v
         /\ Forall positiveDivisor ds
         /\ (ds = [] \/ ds = [followerCount lead]))
  /\ (exists ds v,
         evaluates (isHighlyQualified now lead) ds v
         /\ Forall positiveDivisor ds
         /\ (ds = [] \/ ds = [followerCount lead]))
  /\ (username lead = None -> basicCriteria.hasUsername lead = ret false)
  /\ (keywords lead = None ->
      basicCriteria.hasRelevantKeywords lead = ret false
      /\ criteria.relevantContent lead = ret false
      /\ strictCriteria.perfectMatch lead = ret false)
  /\ (recentTweets lead = None ->
      criteria.hasRecentActivity lead = ret false
      /\ criteria.goodEngagement lead = ret false
      /\ completion (criteria.goodEngagementRate lead) = Normal false
      /\ completion (strictCriteria.highEngagementRate lead) = Normal false)
  /\ (lastActivity lead = None ->
      criteria.activeUser now lead = ret false
      /\ strictCriteria.veryRecentActivity now lead = ret false)
  /\ (followerCount lead = None ->
      criteria.reasonableFollowerCount lead = ret false
      /\ criteria.goodEngagementRate lead = ret false
      /\ strictCriteria.highEngagementRate lead = ret false)
  /\ (mutualConnections lead = None ->
      strictCriteria.mutualConnections lead = ret false)
  /\ (hasEngagedWithUs lead = None ->
      strictCriteria.hasEngagedWithUs lead = ret false)
  /\ (username lead = None -> bio lead = None ->
      basicCriteria.noSpamKeywords lead = ret true).
Proof.
  split; [apply isWorthResearching_total|].
  split.
  { destruct (isWorthEngaging_value now lead)
      as (ds & v1 & v2 & v3 & v4 & v5 & v6 & _ & _ & _ & _ & _ & Hrate & _ & H).
    exists ds; eexists. split; [exact H|].
    exact (@engagementRateAtLeast_divisors _ _ _ _ Hrate). }
  split.
  { destruct (isHighlyQualified_value now lead)
      as (ds & v1 & v2 & v3 & v4 & v5 & _ & _ & Hrate & _ & _ & _ & H).
    exists ds; eexists. split; [exact H|].
    exact (@engagementRateAtLeast_divisors _ _ _ _ Hrate). }
  split.
  { intros H. rewrite hasUsername_value, H. reflexivity. }
  split.
  { intros H.
    rewrite hasRelevantKeywords_value, relevantContent_value, perfectMatch_value, H.
    repeat split. }
  split.
  { intros H. rewrite hasRecentActivity_value, goodEngagement_value, H.
    repeat split; apply engagementRateAtLeast_without_tweets; exact H. }
  split.
  { intros H. unfold criteria.activeUser, strictCriteria.veryRecentActivity.
    rewrite !activeWithin_value, H. split; reflexivity. }
  split.
  { intros H. unfold criteria.reasonableFollowerCount.
    rewrite H. repeat split;
      apply engagementRateAtLeast_without_followers; exact H. }
  split.
  { intros H. rewrite mutualConnections_value, H. reflexivity. }
  split.
  { intros H. unfold strictCriteria.hasEngagedWithUs. rewrite H. reflexivity. }
  intros Hu Hb. unfold basicCriteria.noSpamKeywords. rewrite Hu, Hb. reflexivity.
Qed.

(** C9 amended, at the lead with no field at all: nothing throws, nothing
    is divided, and all three predicates return false. *)
Lemma predicates_never_throw_witness :
  basicCriteria.hasUsername
    {| username := None; bio := None; followerCount := None;
       recentTweets := None; lastActivity := None; keywords := None;
       hasEngagedWithUs := None; mutualConnections := None |}
  = ret false.
Proof.
  exact (proj1 (proj2 (proj2 (proj2
           (predicates_never_throw 0
              {| username := None; bio := None; followerCount := None;
                 recentTweets := None; lastActivity := None; keywords := None;
                 hasEngagedWithUs := None; mutualConnections := None |}))))
         eq_refl).
Defined.

(* ================================================================== *)
(** ** Properties of the message renderer *)




(** *** Replacement in front of plain text *)

Lemma plainText_cons c s :
  plainText (String c s) = true ->
  c <> "$"%char /\ c <> "{"%char /\ plainText s = true.
Proof.
  cbn [plainText]. rewrite !andb_true_iff, !negb_true_iff, !Ascii.eqb_neq.
  tauto.
Qed.

Lemma plainText_app s t :
  plainText s = true -> plainText t = true -> plainText (s ++ t) = true.
Proof.
  induction s as [|c s IH]; intros Hs Ht; [exact Ht|].
  cbn [append plainText] in *.
  apply andb_true_iff in Hs as [Hc Hs]. rewrite Hc, IH; auto.
Qed.

Lemma getSubstitution_cons matched before after c r :
  c <> "$"%char ->
  JsString.getSubstitution matched before after (String c r)
  = String c (JsString.getSubstitution matched before after r).
Proof.
  intros Hc.
  destruct c as [[] [] [] [] [] [] [] []]; try reflexivity.
  exfalso; apply Hc; reflexivity.
Qed.

Lemma getSubstitution_plain matched before after r :
  plainText r = true ->
  JsString.getSubstitution matched before after r = r.
Proof.
  induction r as [|c r IH]; intros Hr; [reflexivity|].
  apply plainText_cons in Hr as (Hc & _ & Hr).
  rewrite getSubstitution_cons by exact Hc. rewrite IH by exact Hr. reflexivity.
Qed.

Lemma splitAtFirst_skip pat p rest :
  plainText p = true ->
  JsString.splitAtFirst (String "{" pat) (p ++ rest)
  = match JsString.splitAtFirst (String "{" pat) rest with
    | Some (before, after) => Some (p ++ before, after)
    | None => None
    end.
Proof.
  induction p as [|c p IH]; intros Hp.
  - cbn [append]. destruct (JsString.splitAtFirst (String "{" pat) rest) as [[b a]|];
      reflexivity.
  - apply plainText_cons in Hp as (_ & Hc & Hp).
    cbn [append JsString.splitAtFirst prefix].
    destruct (ascii_dec "{" c) as [E|_]; [exfalso; apply Hc; symmetry; exact E|].
    rewrite IH by exact Hp.
    destruct (JsString.splitAtFirst (String "{" pat) rest) as [[b a]|];
      reflexivity.
Qed.

Lemma append_assoc (a b c : string) : (a ++ b) ++ c = a ++ b ++ c.
Proof. induction a as [|x a IH]; cbn; [reflexivity|rewrite IH; reflexivity]. Qed.

(** A placeholder is looked for after a plain prefix; the prefix is kept.
    The replacement text is either free of [$] or not used at all. *)
Lemma replace_skip pat replacement p rest :
  plainText p = true ->
  plainText replacement = true
  \/ JsString.splitAtFirst (String "{" pat) rest = None ->
  JsString.replace (String "{" pat) replacement (p ++ rest)
  = p ++ JsString.replace (String "{" pat) replacement rest.
Proof.
  intros Hp Hr. unfold JsString.replace. rewrite splitAtFirst_skip by exact Hp.
  destruct (JsString.splitAtFirst (String "{" pat) rest) as [[b a]|] eqn:E;
    [|reflexivity].
  destruct Hr as [Hr|Hr]; [|discriminate Hr].
  rewrite !getSubstitution_plain by exact Hr.
  rewrite append_assoc. reflexivity.
Qed.

Lemma replace_absent pat replacement s :
  JsString.splitAtFirst pat s = None ->
  JsString.replace pat replacement s = s.
Proof. intros H. unfold JsString.replace. rewrite H. reflexivity. Qed.

(** The greeting of the initial template, once the handle is filled in. *)
Lemma replaceAll_username_initial (handle : string) :
  plainText handle = true ->
  JsString.replaceAll "{{username}}" handle initialTemplate
  = ("Hi " ++ handle)
    ++ "! Loved your thread about {{threadTopic}}. Your point about {{specificInsight}} really resonated. I'm building {{solution}} and think you might find {{value}} interesting. Would you be open to a quick chat?".
Proof.
  intros Hplain.
  transitivity
    ("Hi "
     ++ JsString.getSubstitution "{{username}}" "Hi "
          "! Loved your thread about {{threadTopic}}. Your point about {{specificInsight}} really resonated. I'm building {{solution}} and think you might find {{value}} interesting. Would you be open to a quick chat?"
          handle
     ++ "! Loved your thread about {{threadTopic}}. Your point about {{specificInsight}} really resonated. I'm building {{solution}} and think you might find {{value}} interesting. Would you be open to a quick chat?").
  - vm_compute. reflexivity.
  - rewrite getSubstitution_plain by exact Hplain. rewrite append_assoc.
    reflexivity.
Qed.

(** C8, as stated, fails: with no context post the two placeholders stay
    in the message as literal text and neither fallback string appears. *)
Lemma initial_dm_without_context_keeps_placeholders :
  exists message,
    recentTweets quiet_lead = Some []
    /\ generateDMMessage "initial" quiet_lead None = ret (Some message)
    /\ message
       = "Hi sarah_tech! Loved your thread about {{threadTopic}}. Your point about {{specificInsight}} really resonated. I'm building AI automation tools and think you might find some insights interesting. Would you be open to a quick chat?"
    /\ JsString.includes message "{{threadTopic}}" = true
    /\ JsString.includes message "{{specificInsight}}" = true
    /\ JsString.includes message "tech trends" = false
    /\ JsString.includes message "your perspective" = false.
Proof.
  eexists. split; [reflexivity|]. split; [vm_compute; reflexivity|].
  repeat split; vm_compute; reflexivity.
Qed.

(** C8, amended.  For a lead whose handle is non-empty and free of [$] and
    of opening braces: rendering the initial template without a context
    post (none given, or one without text) leaves [{{threadTopic}}] and
    [{{specificInsight}}] in the message as literal text; the fallback
    strings "tech trends" and "your perspective" are substituted when a
    context post with non-empty text is given and the extractors find no
    topic and no usable sentence in it. *)
Theorem initial_dm_placeholders (lead : Lead) (handle : string)
        (Hhandle : username lead = Some handle)
        (Hnonempty : handle <> "")
        (Hplain : plainText handle = true) :
  (forall tweetData,
      truthyString (match tweetData with
                    | Some tweet => text tweet
                    | None => None
                    end) = false ->
      generateDMMessage "initial" lead tweetData
      = ret (Some (("Hi " ++ handle)
                   ++ "! Loved your thread about {{threadTopic}}. Your point about {{specificInsight}} really resonated. I'm building AI automation tools and think you might find some insights interesting. Would you be open to a quick chat?")))
  /\ (forall tweetData content,
         optChain tweetData text = Some (Some content) ->
         content <> "" ->
         extractTopicFromTweet content = "tech trends" ->
         extractInsight content = "your perspective" ->
         generateDMMessage "initial" lead tweetData
         = ret (Some (("Hi " ++ handle)
                      ++ "! Loved your thread about tech trends. Your point about your perspective really resonated. I'm building AI automation tools and think you might find some insights interesting. Would you be open to a quick chat?"))).
Proof.
  assert (Hgreeting : plainText ("Hi " ++ handle) = true)
    by (apply plainText_app; [reflexivity|exact Hplain]).
  assert (Hkeywords : forall rest message,
             JsString.splitAtFirst "{{topic}}" rest = None ->
             JsString.splitAtFirst "{{field}}" rest = None ->
             message = ("Hi " ++ handle) ++ rest ->
             match keywords lead with
             | Some (first :: _) =>
                 JsString.replace "{{field}}" first
                   (JsString.replace "{{topic}}" first message)
             | _ => message
             end = message).
  { intros rest message Ht Hf ->. destruct (keywords lead) as [[|first others]|];
      try reflexivity.
    rewrite (replace_skip _ first _ rest Hgreeting (or_intror Ht)).
    rewrite (replace_absent _ first _ Ht).
    rewrite (replace_skip _ first _ rest Hgreeting (or_intror Hf)).
    rewrite (replace_absent _ first _ Hf). reflexivity. }
  unfold generateDMMessage.
  change (dmTemplates "initial") with (Text initialTemplate). cbv iota beta zeta.
  rewrite Hhandle.
  destruct handle as [|c h]; [contradiction|].
  rewrite (replaceAll_username_initial _ Hplain).
  split.
  - intros tweetData Hnone.
    assert (E : forall m : string,
               match optChain tweetData text with
               | Some (Some (String _ _ as content)) =>
                   JsString.replace "{{specificInsight}}" (extractInsight content)
                     (JsString.replace "{{threadTopic}}"
                        (extractTopicFromTweet content) m)
               | _ => m
               end = m).
    { intros m. destruct tweetData as [tweet|]; cbn [optChain] in *;
        [|reflexivity].
      destruct (text tweet) as [[|c' t]|]; try reflexivity; discriminate Hnone. }
    rewrite E.
    erewrite Hkeywords; [| | |reflexivity]; [|vm_compute; reflexivity..].
    rewrite replace_skip; [|exact Hgreeting|left; reflexivity].
    rewrite replace_skip; [|exact Hgreeting|left; reflexivity].
    reflexivity.
  - intros tweetData content Htext Hne Htopic Hinsight.
    rewrite Htext. destruct content as [|c' t]; [contradiction|].
    rewrite Htopic, Hinsight.
    rewrite replace_skip; [|exact Hgreeting|left; reflexivity].
    rewrite replace_skip; [|exact Hgreeting|left; reflexivity].
    erewrite Hkeywords; [| | |reflexivity]; [|vm_compute; reflexivity..].
    rewrite replace_skip; [|exact Hgreeting|left; reflexivity].
    rewrite replace_skip; [|exact Hgreeting|left; reflexivity].
    reflexivity.
Qed.

(** C8 amended, at the lead with no recent posts: literal placeholders
    without a context post, fallback strings with a context post in which
    nothing is found. *)
Lemma initial_dm_placeholders_witness :
  generateDMMessage "initial" quiet_lead None
  = ret (Some (("Hi " ++ "sarah_tech")
               ++ "! Loved your thread about {{threadTopic}}. Your point about {{specificInsight}} really resonated. I'm building AI automation tools and think you might find some insights interesting. Would you be open to a quick chat?"))
  /\ generateDMMessage "initial" quiet_lead
       (Some {| text := Some "hello. world"; engagement := None |})
     = ret (Some (("Hi " ++ "sarah_tech")
                  ++ "! Loved your thread about tech trends. Your point about your perspective really resonated. I'm building AI automation tools and think you might find some insights interesting. Would you be open to a quick chat?")).
Proof.
  assert (Hne : "sarah_tech" <> "") by discriminate.
  destruct (@initial_dm_placeholders quiet_lead "sarah_tech" eq_refl Hne eq_refl)
    as [Hliteral Hfallback].
  split.
  - apply (Hliteral None). reflexivity.
  - apply (Hfallback _ "hello. world");
      [reflexivity|discriminate|vm_compute; reflexivity..].
Defined.

(* ================================================================== *)
(** ** Further properties of the sequence builder *)

(** Membership of an action kind in an assembled sequence. *)
Lemma assemble_In r e c d kind :
  In kind (map action (assemble r e c d))
  <-> match kind with
      | Action.research => r = true
      | Action.follow => e = true
      | Action.like => e = true /\ c = true
      | Action.dmSend => d = true
      end.
Proof.
  destruct r, e, c, d, kind; cbn; split; intros H;
    repeat match goal with
      | H : _ \/ _ |- _ => destruct H
      | H : _ /\ _ |- _ => destruct H
      | H : False |- _ => destruct H
      end;
    try discriminate; auto 10.
Qed.

(** The sequence together with the values of the three predicates and
    what decides each step. *)
Lemma getOutreachSequence_decisions nowEngaging nowQualified lead apiQuota :
  exists wr we hq r e c d,
    completion (isWorthResearching lead) = Normal wr
    /\ completion (isWorthEngaging nowEngaging lead) = Normal we
    /\ completion (isHighlyQualified nowQualified lead) = Normal hq
    /\ completion (getOutreachSequence nowEngaging nowQualified lead apiQuota)
       = Normal (assemble r e c d)
    /\ r = (0 <? remaining (userLookup apiQuota)) && wr
    /\ e = (0 <? remaining (follow apiQuota))
           && (0 <? remaining (like apiQuota)) && we
    /\ c = hasRecentTweets lead && (0 <? remaining (like apiQuota))
    /\ d = (0 <? remaining (dmSend apiQuota)) && hq
           && (2 <=? List.length (assemble r e c false))%nat.
Proof.
  destruct (getOutreachSequence_shape nowEngaging nowQualified lead apiQuota)
    as (wr & we & hq & ds1 & ds2 & Hwr & Hwe & Hhq & Hseq & _).
  cbn zeta in Hseq.
  exists wr, we, hq. do 4 eexists.
  rewrite Hwr, Hwe, Hhq. cbn [completion ret].
  repeat split. exact Hseq.
Qed.

(** X1.  A DM step is never planned without a follow step: whenever the
    returned sequence contains [dmSend] it also contains [follow],
    [isWorthEngaging] returned true and the follow and like allowances are
    both positive. *)
Theorem dm_step_implies_follow_step
        (nowEngaging nowQualified : Z) (lead : Lead) (apiQuota : ApiQuota) :
  exists sequence,
    completion (getOutreachSequence nowEngaging nowQualified lead apiQuota)
    = Normal sequence
    /\ (In Action.dmSend (map action sequence) ->
        In Action.follow (map action sequence)
        /\ completion (isWorthEngaging nowEngaging lead) = Normal true
        /\ 0 < remaining (follow apiQuota)
        /\ 0 < remaining (like apiQuota)).
Proof.
  destruct (getOutreachSequence_flags nowEngaging nowQualified lead apiQuota)
    as (r & e & c & d & Hseq & _ & He & _ & Hd).
  eexists. split; [exact Hseq|].
  intros Hdm. apply assemble_In in Hdm. cbn in Hdm. subst d.
  destruct (Hd eq_refl) as (_ & _ & Hlen).
  assert (Ee : e = true)
    by (destruct r, e, c; cbn in Hlen; try reflexivity; lia).
  subst e. destruct (He eq_refl) as (Hf & Hl & Hwe).
  split; [apply assemble_In; reflexivity|]. auto.
Qed.

(** X1 at the scenario lead with the test quota. *)
Lemma dm_step_implies_follow_step_witness :
  In Action.follow
    (map action [researchStep; followStep; likeStep; dmSendStep])
  /\ completion (isWorthEngaging 0 (sarah_tech 0)) = Normal true.
Proof.
  destruct (dm_step_implies_follow_step 0 0 (sarah_tech 0) mockQuota)
    as (sequence & Hseq & H).
  assert (E : completion (getOutreachSequence 0 0 (sarah_tech 0) mockQuota)
              = Normal [researchStep; followStep; likeStep; dmSendStep])
    by (vm_compute; reflexivity).
  rewrite E in Hseq. injection Hseq as <-.
  assert (Hdm : In Action.dmSend
                  (map action [researchStep; followStep; likeStep; dmSendStep]))
    by (cbn; auto).
  destruct (H Hdm) as (Hf & Hwe & _). exact (conj Hf Hwe).
Defined.

(** X2.  The builder returns one of exactly nine sequences of action
    kinds, and each of the nine is returned for some lead and quota. *)
Theorem nine_possible_sequences :
  (forall nowEngaging nowQualified lead apiQuota,
      exists sequence,
        completion (getOutreachSequence nowEngaging nowQualified lead apiQuota)
        = Normal sequence
        /\ In (map action sequence) possibleSequences)
  /\ (forall kinds,
         In kinds possibleSequences ->
         exists lead apiQuota sequence,
           completion (getOutreachSequence 0 0 lead apiQuota) = Normal sequence
           /\ map action sequence = kinds).
Proof.
  split.
  - intros nowEngaging nowQualified lead apiQuota.
    destruct (getOutreachSequence_flags nowEngaging nowQualified lead apiQuota)
      as (r & e & c & d & Hseq & _ & _ & _ & Hd).
    eexists. split; [exact Hseq|].
    destruct d.
    + destruct (Hd eq_refl) as (_ & _ & Hlen).
      destruct r, e, c; cbn in Hlen; try lia; cbn; auto 12.
    + destruct r, e, c; cbn; auto 12.
  - intros kinds Hin. cbn in Hin.
    repeat destruct Hin as [<-|Hin]; try contradiction.
    + exists (sarah_tech 0), (quotaOf 0 0 0 0). eexists.
      split; [vm_compute; reflexivity|reflexivity].
    + exists (sarah_tech 0), (quotaOf 1 0 0 0). eexists.
      split; [vm_compute; reflexivity|reflexivity].
    + exists (sarah_without_tweets 0), (quotaOf 0 1 1 0). eexists.
      split; [vm_compute; reflexivity|reflexivity].
    + exists (sarah_tech 0), (quotaOf 0 1 1 0). eexists.
      split; [vm_compute; reflexivity|reflexivity].
    + exists (sarah_without_tweets 0), (quotaOf 1 1 1 0). eexists.
      split; [vm_compute; reflexivity|reflexivity].
    + exists (sarah_tech 0), (quotaOf 1 1 1 0). eexists.
      split; [vm_compute; reflexivity|reflexivity].
    + exists (sarah_without_tweets 0), (quotaOf 1 1 1 1). eexists.
      split; [vm_compute; reflexivity|reflexivity].
    + exists (sarah_tech 0), (quotaOf 0 1 1 1). eexists.
      split; [vm_compute; reflexivity|reflexivity].
    + exists (sarah_tech 0), (quotaOf 1 1 1 1). eexists.
      split; [vm_compute; reflexivity|reflexivity].
Qed.

(** X2 for the sequence research, follow, dmSend. *)
Lemma nine_possible_sequences_witness :
  exists lead apiQuota sequence,
    completion (getOutreachSequence 0 0 lead apiQuota) = Normal sequence
    /\ map action sequence
       = [Action.research; Action.follow; Action.dmSend].
Proof.
  apply (proj2 nine_possible_sequences). cbn. auto 12.
Defined.

(** X3.  Which steps are planned: research exactly when the user-lookup
    allowance is positive and the lead is worth researching; follow exactly
    when the follow and like allowances are positive and the lead is worth
    engaging; like exactly when follow is planned and the lead has a recent
    tweet; dmSend exactly when the DM allowance is positive, the lead is
    highly qualified, follow is planned and research or like is planned
    too. *)
Theorem planned_steps_characterised
        (nowEngaging nowQualified : Z) (lead : Lead) (apiQuota : ApiQuota) :
  exists sequence wr we hq,
    completion (getOutreachSequence nowEngaging nowQualified lead apiQuota)
    = Normal sequence
    /\ completion (isWorthResearching lead) = Normal wr
    /\ completion (isWorthEngaging nowEngaging lead) = Normal we
    /\ completion (isHighlyQualified nowQualified lead) = Normal hq
    /\ (In Action.research (map action sequence)
        <-> 0 < remaining (userLookup apiQuota) /\ wr = true)
    /\ (In Action.follow (map action sequence)
        <-> 0 < remaining (follow apiQuota) /\ 0 < remaining (like apiQuota)
            /\ we = true)
    /\ (In Action.like (map action sequence)
        <-> In Action.follow (map action sequence)
            /\ hasRecentTweets lead = true)
    /\ (In Action.dmSend (map action sequence)
        <-> 0 < remaining (dmSend apiQuota) /\ hq = true
            /\ In Action.follow (map action sequence)
            /\ (In Action.research (map action sequence)
                \/ In Action.like (map action sequence))).
Proof.
  destruct (getOutreachSequence_decisions nowEngaging nowQualified lead apiQuota)
    as (wr & we & hq & r & e & c & d & Hwr & Hwe & Hhq & Hseq & Er & Ee & Ec & Ed).
  exists (assemble r e c d), wr, we, hq.
  repeat (split; [assumption|]).
  rewrite !assemble_In.
  assert (Hlen : (2 <=? List.length (assemble r e c false))%nat = true
                 <-> e = true /\ (r = true \/ (e = true /\ c = true))).
  { destruct r, e, c; cbn; intuition (try discriminate; auto). }
  split; [|split; [|split]].
  - rewrite Er, andb_true_iff, Z.ltb_lt. reflexivity.
  - rewrite Ee, !andb_true_iff, !Z.ltb_lt. tauto.
  - rewrite Ec, Ee, !andb_true_iff, !Z.ltb_lt. tauto.
  - rewrite Ed at 1. rewrite !andb_true_iff, Hlen, Z.ltb_lt. tauto.
Qed.

(** X4.  The dispatcher's two skip reasons.  [sendTwitterOutreach] never
    fails while planning; it skips with "low_engagement_potential" exactly
    when its gate, [isWorthEngaging], returns false; and it skips with
    "no_api_quota" exactly when the gate passed and the builder planned
    neither research (user-lookup counter at its limit, or lead not worth
    researching) nor follow (follow or like counter at its limit, or
    [isWorthEngaging] false at the builder's own, later reading of the
    clock).  So the reason "no_api_quota" is also reported with every
    counter below its limit, for a lead whose last activity leaves the
    seven-day window between the two readings. *)
Theorem no_api_quota_skip_characterised :
  (forall (nowGate nowQuota nowEngaging nowQualified : Z) (lead : Lead)
          (twitterClient : TwitterDMClient.State),
      let outcome :=
        DMDispatcherAgent.sendTwitterOutreach nowGate nowQuota nowEngaging
          nowQualified lead twitterClient in
      let usedUp := fun key =>
        TwitterDMClient.freeTierLimits key
        <= TwitterDMClient.count key (TwitterDMClient.apiCallCount twitterClient) in
      exists gate wr we,
        completion (isWorthEngaging nowGate lead) = Normal gate
        /\ completion (isWorthResearching lead) = Normal wr
        /\ completion (isWorthEngaging nowEngaging lead) = Normal we
        /\ outcome <> DMDispatcherAgent.failed
        /\ (outcome = DMDispatcherAgent.skipped "low_engagement_potential"
            <-> gate = false)
        /\ (outcome = DMDispatcherAgent.skipped "no_api_quota"
            <-> gate = true
                /\ (usedUp Key.userLookup \/ wr = false)
                /\ (usedUp Key.follow \/ usedUp Key.like \/ we = false)))
  /\ (DMDispatcherAgent.sendTwitterOutreach (7 * day - 1) (7 * day - 1)
        (7 * day) (7 * day) lapsing_lead TwitterDMClient.initial
      = DMDispatcherAgent.skipped "no_api_quota"
      /\ forall key,
           TwitterDMClient.count key
             (TwitterDMClient.apiCallCount TwitterDMClient.initial)
           < TwitterDMClient.freeTierLimits key).
Proof.
  split.
  - intros nowGate nowQuota nowEngaging nowQualified lead twitterClient
           outcome usedUp.
    destruct (isWorthEngaging_total nowGate lead) as (ds & gate & Hgate & _).
    unfold evaluates in Hgate.
    destruct (getOutreachSequence_decisions nowEngaging nowQualified lead
                (TwitterDMClient.entries
                   (TwitterDMClient.getRemainingQuota nowQuota twitterClient)))
      as (wr & we & hq & r & e & c & d & Hwr & Hwe & Hhq & Hseq & Er & Ee & Ec & Ed).
    exists gate, wr, we.
    split; [rewrite Hgate; reflexivity|].
    split; [exact Hwr|]. split; [exact Hwe|].
    cbn [TwitterDMClient.getRemainingQuota TwitterDMClient.entries userLookup
           follow like dmSend TwitterDMClient.entryFor remaining] in Er, Ee.
    assert (Hr : r = false <-> usedUp Key.userLookup \/ wr = false).
    { subst r usedUp. cbv beta. rewrite andb_false_iff, Z.ltb_ge. split.
      - intros [H|H]; [left; lia|right; exact H].
      - intros [H|H]; [left; lia|right; exact H]. }
    assert (He : e = false
                 <-> usedUp Key.follow \/ usedUp Key.like \/ we = false).
    { subst e usedUp. cbv beta. rewrite !andb_false_iff, !Z.ltb_ge. split.
      - intros [[H|H]|H]; [left; lia|right; left; lia|right; right; exact H].
      - intros [H|[H|H]]; [left; left; lia|left; right; lia|right; exact H]. }
    assert (Hd : r = false -> e = false -> d = false).
    { intros -> ->. rewrite Ed. cbn. apply andb_false_r. }
    clear Er Ee Ec Ed.
    subst outcome. unfold DMDispatcherAgent.sendTwitterOutreach.
    rewrite Hgate. cbn [completion]. cbv zeta. rewrite Hseq.
    assert (Hempty : assemble r e c d = [] <-> r = false /\ e = false).
    { split.
      - intros H. destruct r, e, c, d; cbn in H; try discriminate H; auto.
      - intros [H1 H2]. rewrite (Hd H1 H2), H1, H2. reflexivity. }
    destruct gate.
    + destruct (assemble r e c d) as [|step rest].
      * split; [discriminate|].
        split; [split; discriminate|].
        split; [intros _|reflexivity].
        destruct (proj1 Hempty eq_refl) as [H1 H2].
        split; [reflexivity|].
        split; [apply Hr; exact H1|apply He; exact H2].
      * split; [discriminate|].
        split; [split; discriminate|].
        split; [discriminate|].
        intros (_ & H1 & H2). apply Hr in H1. apply He in H2.
        discriminate (proj2 Hempty (conj H1 H2)).
    + split; [discriminate|].
      split; [split; reflexivity|].
      split; [discriminate|]. intros (H & _). discriminate H.
  - split; [vm_compute; reflexivity|].
    intros key. destruct key; cbn; lia.
Qed.

(** X5.  Every step the builder plans passes the guard the executor
    re-checks before performing it (with the same lead and quota); in
    particular a planned like step always finds a first recent tweet. *)
Theorem planned_steps_pass_executor_guard
        (nowEngaging nowQualified : Z) (lead : Lead) (apiQuota : ApiQuota) :
  exists sequence,
    completion (getOutreachSequence nowEngaging nowQualified lead apiQuota)
    = Normal sequence
    /\ Forall (fun st => executorGuard lead apiQuota (action st) = true) sequence
    /\ (In Action.like (map action sequence) ->
        exists tweet tweets, recentTweets lead = Some (tweet :: tweets)).
Proof.
  destruct (getOutreachSequence_decisions nowEngaging nowQualified lead apiQuota)
    as (wr & we & hq & r & e & c & d & _ & _ & _ & Hseq & Er & Ee & Ec & Ed).
  eexists. split; [exact Hseq|]. split.
  - apply Forall_forall. intros st Hin.
    assert (Hk : In (action st) (map action (assemble r e c d)))
      by (apply in_map; exact Hin).
    apply assemble_In in Hk. unfold executorGuard.
    destruct (action st).
    + rewrite Er in Hk. apply andb_prop in Hk. tauto.
    + rewrite Ee in Hk.
      apply andb_prop in Hk as [Hk _]. apply andb_prop in Hk. tauto.
    + destruct Hk as [_ Hc]. rewrite Ec in Hc. unfold hasRecentTweets in Hc.
      apply andb_prop in Hc as [Ht Hl]. rewrite Hl, Ht. reflexivity.
    + rewrite Ed in Hk. apply andb_prop in Hk as [Hk _].
      apply andb_prop in Hk. tauto.
  - intros Hlike. apply assemble_In in Hlike as [_ Hc].
    rewrite Ec in Hc. apply andb_prop in Hc as [Ht _].
    unfold hasRecentTweets in Ht.
    destruct (recentTweets lead) as [[|tweet tweets]|]; try discriminate Ht.
    eauto.
Qed.

(** X5 at the scenario lead: the like step finds the one recent tweet. *)
Lemma planned_steps_pass_executor_guard_witness :
  exists tweet tweets, recentTweets (sarah_tech 0) = Some (tweet :: tweets).
Proof.
  destruct (planned_steps_pass_executor_guard 0 0 (sarah_tech 0) mockQuota)
    as (sequence & Hseq & _ & Hlike).
  assert (E : completion (getOutreachSequence 0 0 (sarah_tech 0) mockQuota)
              = Normal [researchStep; followStep; likeStep; dmSendStep])
    by (vm_compute; reflexivity).
  rewrite E in Hseq. injection Hseq as <-.
  apply Hlike. cbn. auto.
Defined.

(* ================================================================== *)
(** ** Further properties of the qualification predicates *)

Lemma rate_at_least_integers (a b likes followers : Z) :
  0 < followers -> 0 < b ->
  (Qle_bool (Qmake a (Z.to_pos b)) (inject_Z likes / inject_Z followers) = true
   <-> a * followers <= likes * b).
Proof.
  intros Hf Hb. rewrite Qle_bool_iff.
  unfold Qle, Qdiv, Qmult, Qinv, inject_Z. cbn [Qnum Qden].
  destruct followers as [|p|p]; try lia.
  cbn [Qnum Qden]. rewrite Z2Pos.id by exact Hb.
  rewrite !Z.mul_1_r, Pos.mul_1_l. reflexivity.
Qed.

(** The rate criterion in integers: the guard passed and
    [a * followers <= likes * b] for the threshold [a / b]. *)
Lemma engagementRateAtLeast_integers (a b : Z) lead :
  0 < b ->
  (completion (engagementRateAtLeast (Qmake a (Z.to_pos b)) lead) = Normal true
   <-> exists followers total,
        followerCount lead = Some followers
        /\ totalLikes lead = Some total
        /\ 0 < followers
        /\ a * followers <= total * b).
Proof.
  intros Hb. unfold engagementRateAtLeast.
  destruct (followerCount lead) as [n|]; cbn [gt].
  - destruct (0 <? n) eqn:Hn.
    + apply Z.ltb_lt in Hn.
      destruct (totalLikes lead) as [total|]; cbn [divide bind completion ret geNum].
      * assert (Hz : (n =? 0) = false) by (apply Z.eqb_neq; lia).
        rewrite Hz. cbn [geNum]. split.
        -- intros H. injection H as H.
           apply rate_at_least_integers in H; try assumption. eauto 8.
        -- intros (f & t & Ef & Et & _ & Hle).
           injection Ef as <-. injection Et as <-. f_equal.
           apply rate_at_least_integers; assumption.
      * split; [discriminate|].
        intros (f & t & _ & Et & _); discriminate Et.
    + apply Z.ltb_ge in Hn. split; [discriminate|].
      intros (f & t & Ef & _ & Hpos & _). injection Ef as <-. lia.
  - split; [discriminate|]. intros (f & t & Ef & _); discriminate Ef.
Qed.

(** X6.  The engagement-rate criteria in whole numbers, for counts that
    doubles hold exactly (follower count and summed likes at most 2^53,
    no negative like count).  The worth-engaging criterion holds exactly
    when the follower count is positive and the recent tweets' likes add
    up to at least half of it; the highly-qualified criterion exactly when
    the likes add up to at least the follower count. *)
Theorem engagement_rate_criteria_in_integers (lead : Lead)
        (Hexact : countsAreExact (followerCount lead) lead = true) :
  (completion (criteria.goodEngagementRate lead) = Normal true
   <-> exists followers total,
        followerCount lead = Some followers
        /\ totalLikes lead = Some total
        /\ 0 < followers
        /\ followers <= 2 * total)
  /\ (completion (strictCriteria.highEngagementRate lead) = Normal true
      <-> exists followers total,
           followerCount lead = Some followers
           /\ totalLikes lead = Some total
           /\ 0 < followers
           /\ followers <= total).
Proof.
  split.
  - unfold criteria.goodEngagementRate.
    change (minEngagement targetingCriteria) with (Qmake 5 (Z.to_pos 10)).
    rewrite (@engagementRateAtLeast_integers 5 10 lead) by lia.
    split; intros (f & t & Ef & Et & Hpos & Hle); exists f, t;
      repeat split; try assumption; lia.
  - unfold strictCriteria.highEngagementRate.
    change 1%Q with (Qmake 1 (Z.to_pos 1)).
    rewrite (@engagementRateAtLeast_integers 1 1 lead) by lia.
    split; intros (f & t & Ef & Et & Hpos & Hle); exists f, t;
      repeat split; try assumption; lia.
Qed.

(** X6 at a lead whose single tweet has as many likes as it has
    followers. *)
Lemma engagement_rate_criteria_witness :
  completion
    (strictCriteria.highEngagementRate
       {| username := None; bio := None; followerCount := Some 40;
          recentTweets :=
            Some [ {| text := None;
                      engagement := Some {| likes := Some 40; comments := None |} |} ];
          lastActivity := None; keywords := None; hasEngagedWithUs := None;
          mutualConnections := None |})
  = Normal true.
Proof.
  refine (proj2 (proj2 (@engagement_rate_criteria_in_integers _ _)) _).
  - vm_compute; reflexivity.
  - exists 40, 40. repeat split; try reflexivity; lia.
Defined.

(* ================================================================== *)
(** ** Properties of the extractors *)

(** X7.  [extractTopicFromTweet] returns a listed topic that occurs,
    case-insensitively, in the content, or the fallback "tech trends"; it
    falls back exactly when no listed topic occurs; and the first listed
    topic wins: any content in which "ai" occurs yields "AI". *)
Theorem extractTopicFromTweet_finds_first_topic (content : string) :
  (extractTopicFromTweet content = "tech trends"
   \/ (In (extractTopicFromTweet content) topics
       /\ Substring (JsString.toLowerCase (extractTopicFromTweet content))
            (JsString.toLowerCase content)))
  /\ (extractTopicFromTweet content = "tech trends"
      <-> forall topic,
           In topic topics ->
           ~ Substring (JsString.toLowerCase topic) (JsString.toLowerCase content))
  /\ (Substring "ai" (JsString.toLowerCase content) ->
      extractTopicFromTweet content = "AI").
Proof.
  unfold extractTopicFromTweet.
  destruct (find _ topics) as [topic|] eqn:Hfind.
  - destruct (find_some _ _ Hfind) as [Hin Hinc]. apply includes_spec in Hinc.
    split; [right; auto|]. split.
    + split.
      * intros ->. cbn in Hin. exfalso.
        repeat destruct Hin as [Hin|Hin]; try discriminate Hin; exact Hin.
      * intros Hnone. exfalso. exact (Hnone topic Hin Hinc).
    + intros Hai. apply includes_spec in Hai.
      unfold topics in Hfind. cbn [find] in Hfind.
      change (JsString.toLowerCase "AI") with "ai" in Hfind.
      rewrite Hai in Hfind. injection Hfind as <-. reflexivity.
  - split; [left; reflexivity|]. split.
    + split; [|reflexivity]. intros _ topic Hin.
      apply includes_false. exact (find_none _ _ Hfind topic Hin).
    + intros Hai. apply includes_spec in Hai.
      pose proof (find_none _ _ Hfind "AI" (or_introl eq_refl)) as Hno.
      cbv beta in Hno.
      change (JsString.toLowerCase "AI") with "ai" in Hno.
      rewrite Hai in Hno. discriminate Hno.
Qed.

(** X7 on a text that mentions email marketing: "ai" occurs inside
    "email", so the topic is "AI", although "marketing" occurs too. *)
Lemma extractTopicFromTweet_witness :
  extractTopicFromTweet "Email marketing tips" = "AI".
Proof.
  apply (proj2 (proj2 (extractTopicFromTweet_finds_first_topic _))).
  apply includes_spec. vm_compute. reflexivity.
Defined.

Lemma length_append (s t : string) :
  String.length (s ++ t) = (String.length s + String.length t)%nat.
Proof. induction s as [|c s IH]; cbn; [reflexivity|rewrite IH; reflexivity]. Qed.

Lemma length_take n s :
  String.length (JsString.take n s) = Nat.min n (String.length s).
Proof.
  revert s. induction n as [|n IH]; intros [|c s]; cbn; try reflexivity.
  rewrite IH. reflexivity.
Qed.

(** X8.  [extractInsight] returns either the fallback "your perspective"
    or the first 11 to 50 characters of a trimmed fragment followed by
    three dots, the dots also when nothing was cut off; the result is never
    shorter than 14 nor longer than 53 characters. *)
Theorem extractInsight_length_bounds (text : string) :
  (14 <= String.length (extractInsight text) <= 53)%nat
  /\ (extractInsight text = "your perspective"
      \/ exists fragment,
          In fragment (JsString.split "." text)
          /\ (10 < String.length (JsString.trim fragment))%nat
          /\ extractInsight text
             = JsString.take 50 (JsString.trim fragment) ++ "...").
Proof.
  unfold extractInsight.
  destruct (filter _ (JsString.split "." text)) as [|first rest] eqn:Hfilter.
  - split; [cbn; lia|left; reflexivity].
  - assert (Hin : In first (filter (fun s => (10 <? String.length (JsString.trim s))%nat)
                              (JsString.split "." text)))
      by (rewrite Hfilter; left; reflexivity).
    apply filter_In in Hin as [Hin Hlong]. apply Nat.ltb_lt in Hlong.
    split.
    + rewrite length_append, length_take. cbn [String.length]. lia.
    + right. exists first. auto.
Qed.

(** X8 on a short sentence: nothing is cut off and the dots are added. *)
Lemma extractInsight_witness :
  extractInsight "Short and sweet" = "Short and sweet...".
Proof.
  destruct (proj2 (extractInsight_length_bounds "Short and sweet"))
    as [H|(fragment & Hin & _ & H)].
  - vm_compute in H. discriminate H.
  - cbn in Hin. destruct Hin as [<-|[]]. exact H.
Defined.

(* ================================================================== *)
(** ** Further properties of the message renderers *)

Lemma replace_present pat replacement before after s :
  JsString.splitAtFirst pat s = Some (before, after) ->
  plainText replacement = true ->
  JsString.replace pat replacement s = before ++ replacement ++ after.
Proof.
  intros Hs Hr. unfold JsString.replace. rewrite Hs.
  rewrite getSubstitution_plain by exact Hr. reflexivity.
Qed.

(** A placeholder that does not occur after a plain prefix: the message is
    left as it is, whatever the replacement text. *)
Lemma replace_absent_after pat replacement p rest :
  plainText p = true ->
  JsString.splitAtFirst (String "{" pat) rest = None ->
  JsString.replace (String "{" pat) replacement (p ++ rest) = p ++ rest.
Proof.
  intros Hp Hnone.
  rewrite replace_skip; [|exact Hp|right; exact Hnone].
  rewrite replace_absent by exact Hnone. reflexivity.
Qed.

(** The greeting of a DM template, once a plain handle is filled in. *)
Ltac fill_in_handle rest Hplain :=
  match goal with
  | |- JsString.replaceAll ?pat ?handle _ = _ =>
      transitivity ("Hi " ++ JsString.getSubstitution pat "Hi " rest handle ++ rest);
      [ vm_compute; reflexivity
      | rewrite getSubstitution_plain by exact Hplain;
        rewrite append_assoc; reflexivity ]
  end.

Lemma replaceAll_username_warm (handle : string) :
  plainText handle = true ->
  JsString.replaceAll "{{username}}" handle warmTemplate
  = ("Hi " ++ handle)
    ++ "! Thanks for the follow back. I noticed your recent post about {{recentTopic}} - really insightful! I'm working on similar {{solution}} initiatives and would love to connect. Best regards!".
Proof.
  intros Hplain.
  fill_in_handle
    "! Thanks for the follow back. I noticed your recent post about {{recentTopic}} - really insightful! I'm working on similar {{solution}} initiatives and would love to connect. Best regards!"
    Hplain.
Qed.

Lemma replaceAll_username_followUp (handle : string) :
  plainText handle = true ->
  JsString.replaceAll "{{username}}" handle followUpTemplate
  = ("Hi " ++ handle)
    ++ "! Just wanted to follow up on my previous message about {{topic}}. No pressure, but I'd love to share some insights that might be valuable for your work. Cheers!".
Proof.
  intros Hplain.
  fill_in_handle
    "! Just wanted to follow up on my previous message about {{topic}}. No pressure, but I'd love to share some insights that might be valuable for your work. Cheers!"
    Hplain.
Qed.

(** Rewrites away a replacement whose placeholder does not occur behind
    the plain prefix [Hp] speaks of. *)
Ltac placeholder_absent Hp :=
  rewrite replace_absent_after; [|exact Hp|vm_compute; reflexivity].

(** X9.  The warm template is never personalised beyond the handle: for
    a lead with a non-empty handle free of [$] and of opening braces, and
    whatever the context post and the keywords, the message greets the
    handle, names the fixed solution and still carries the placeholder
    [{{recentTopic}}] as literal text. *)
Theorem warm_dm_keeps_recentTopic_placeholder
        (lead : Lead) (handle : string) (tweetData : option Tweet)
        (Hhandle : username lead = Some handle)
        (Hnonempty : handle <> "")
        (Hplain : plainText handle = true) :
  generateDMMessage "warm" lead tweetData
  = ret (Some (("Hi " ++ handle)
               ++ "! Thanks for the follow back. I noticed your recent post about {{recentTopic}} - really insightful! I'm working on similar AI automation tools initiatives and would love to connect. Best regards!")).
Proof.
  assert (Hgreeting : plainText ("Hi " ++ handle) = true)
    by (apply plainText_app; [reflexivity|exact Hplain]).
  unfold generateDMMessage.
  change (dmTemplates "warm") with (Text warmTemplate). cbv iota beta zeta.
  rewrite Hhandle. destruct handle as [|c h]; [contradiction|].
  rewrite (replaceAll_username_warm _ Hplain).
  destruct (optChain tweetData text) as [[[|c' t]|]|];
    destruct (keywords lead) as [[|first others]|];
    repeat placeholder_absent Hgreeting;
    (rewrite replace_skip; [|exact Hgreeting|left; reflexivity]);
    (rewrite replace_skip; [|exact Hgreeting|left; reflexivity]);
    reflexivity.
Qed.

(** X9 at the scenario lead with a context post. *)
Lemma warm_dm_witness :
  generateDMMessage "warm" (sarah_tech 0)
    (Some {| text := Some "Just launched our new AI automation tool!";
             engagement := None |})
  = ret (Some (("Hi " ++ "sarah_tech")
               ++ "! Thanks for the follow back. I noticed your recent post about {{recentTopic}} - really insightful! I'm working on similar AI automation tools initiatives and would love to connect. Best regards!")).
Proof.
  assert (Hne : "sarah_tech" <> "") by discriminate.
  exact (@warm_dm_keeps_recentTopic_placeholder (sarah_tech 0) "sarah_tech" _
           eq_refl Hne eq_refl).
Defined.

(** X10.  The follow-up template takes its topic from the first keyword
    only: for a lead with a plain non-empty handle and whatever the context
    post, [{{topic}}] becomes the first keyword when that keyword is plain
    (further keywords are not used), and stays as literal text when the
    lead has no keyword. *)
Theorem followUp_dm_uses_first_keyword
        (lead : Lead) (handle : string) (tweetData : option Tweet)
        (Hhandle : username lead = Some handle)
        (Hnonempty : handle <> "")
        (Hplain : plainText handle = true) :
  (forall first others,
      keywords lead = Some (first :: others) ->
      plainText first = true ->
      generateDMMessage "followUp" lead tweetData
      = ret (Some (("Hi " ++ handle)
                   ++ "! Just wanted to follow up on my previous message about "
                   ++ first
                   ++ ". No pressure, but I'd love to share some insights that might be valuable for your work. Cheers!")))
  /\ (keywords lead = None \/ keywords lead = Some [] ->
      generateDMMessage "followUp" lead tweetData
      = ret (Some (("Hi " ++ handle)
                   ++ "! Just wanted to follow up on my previous message about {{topic}}. No pressure, but I'd love to share some insights that might be valuable for your work. Cheers!"))).
Proof.
  assert (Hgreeting : plainText ("Hi " ++ handle) = true)
    by (apply plainText_app; [reflexivity|exact Hplain]).
  unfold generateDMMessage.
  change (dmTemplates "followUp") with (Text followUpTemplate).
  cbv iota beta zeta.
  rewrite Hhandle. destruct handle as [|c h]; [contradiction|].
  rewrite (replaceAll_username_followUp _ Hplain).
  assert (Hcontext :
            match optChain tweetData text with
            | Some (Some (String _ _ as content)) =>
                JsString.replace "{{specificInsight}}" (extractInsight content)
                  (JsString.replace "{{threadTopic}}"
                     (extractTopicFromTweet content)
                     (("Hi " ++ String c h)
                      ++ "! Just wanted to follow up on my previous message about {{topic}}. No pressure, but I'd love to share some insights that might be valuable for your work. Cheers!"))
            | _ =>
                ("Hi " ++ String c h)
                ++ "! Just wanted to follow up on my previous message about {{topic}}. No pressure, but I'd love to share some insights that might be valuable for your work. Cheers!"
            end
            = ("Hi " ++ String c h)
              ++ "! Just wanted to follow up on my previous message about {{topic}}. No pressure, but I'd love to share some insights that might be valuable for your work. Cheers!").
  { destruct (optChain tweetData text) as [[[|c' t]|]|]; try reflexivity.
    repeat placeholder_absent Hgreeting. reflexivity. }
  rewrite Hcontext. clear Hcontext.
  split.
  - intros first others Hk Hfirst. rewrite Hk.
    rewrite replace_skip; [|exact Hgreeting|left; exact Hfirst].
    rewrite (@replace_present "{{topic}}" first
               "! Just wanted to follow up on my previous message about "
               ". No pressure, but I'd love to share some insights that might be valuable for your work. Cheers!");
      [|vm_compute; reflexivity|exact Hfirst].
    assert (Hprefix : plainText
                        ((("Hi " ++ String c h)
                          ++ "! Just wanted to follow up on my previous message about ")
                         ++ first) = true)
      by (repeat apply plainText_app; try assumption; reflexivity).
    rewrite <- !append_assoc.
    repeat placeholder_absent Hprefix. reflexivity.
  - intros [Hk|Hk]; rewrite Hk; repeat placeholder_absent Hgreeting; reflexivity.
Qed.

(** X10 at the scenario lead: the topic is its first keyword, AI. *)
Lemma followUp_dm_witness :
  generateDMMessage "followUp" (sarah_tech 0) None
  = ret (Some (("Hi " ++ "sarah_tech")
               ++ "! Just wanted to follow up on my previous message about "
               ++ "AI"
               ++ ". No pressure, but I'd love to share some insights that might be valuable for your work. Cheers!")).
Proof.
  assert (Hne : "sarah_tech" <> "") by discriminate.
  exact (proj1 (@followUp_dm_uses_first_keyword (sarah_tech 0) "sarah_tech" None
                  eq_refl Hne eq_refl)
           "AI" ["automation"] eq_refl eq_refl).
Defined.

(** *** Engagement messages *)



(** X12.  The retweet template is never filled in: whatever the lead, its
    industry and the tweet, [generateEngagementMessage] returns it with the
    placeholders [{{username}}], [{{tweetText}}] and [{{comment}}] still in
    it. *)
Theorem retweet_message_is_never_filled_in
        (p : Pictographs) (prospect : Prospect) (tweetData : option Tweet) :
  generateEngagementMessage p "retweet" prospect tweetData
  = ret (Some (Message "RT @{{username}}: {{tweetText}} // {{comment}}")).
Proof.
  unfold generateEngagementMessage.
  change (engagementTemplates p "retweet")
    with (Text "RT @{{username}}: {{tweetText}} // {{comment}}").
  cbv iota beta zeta.
  destruct (keywords (lead_of prospect)) as [[|first others]|];
    destruct (optChain tweetData text) as [[[|c t]|]|];
    destruct (industry prospect) as [[|c' field]|];
    repeat (rewrite replace_absent by (vm_compute; reflexivity));
    reflexivity.
Qed.

(** X13.  A reply is the insight drawn from the tweet followed by the
    lead's industry: when the tweet has text, the lead an industry, and
    both the extracted insight and the industry are free of [$] and of
    opening braces, the message is the insight, the fixed middle part, the
    industry and a full stop; the lead's keywords play no part. *)
Theorem reply_message_joins_insight_and_industry
        (p : Pictographs) (prospect : Prospect) (tweetData : option Tweet)
        (content field : string)
        (Htext : optChain tweetData text = Some (Some content))
        (Hcontent : content <> "")
        (Hindustry : industry prospect = Some field)
        (Hfield : field <> "")
        (Hinsight_plain : plainText (extractInsight content) = true)
        (Hfield_plain : plainText field = true) :
  generateEngagementMessage p "reply" prospect tweetData
  = ret (Some (Message (extractInsight content
                        ++ " - really resonates with my experience in "
                        ++ field ++ "."))).
Proof.
  unfold generateEngagementMessage.
  change (engagementTemplates p "reply")
    with (Text "{{insight}} - really resonates with my experience in {{field}}.").
  cbv iota beta zeta.
  rewrite Htext, Hindustry.
  destruct content as [|c t]; [contradiction|].
  destruct field as [|c' f]; [contradiction|].
  assert (Htopic : forall m,
             m = "{{insight}} - really resonates with my experience in {{field}}." ->
             match keywords (lead_of prospect) with
             | Some (first :: _) => JsString.replace "{{topic}}" first m
             | _ => m
             end = m).
  { intros m ->. destruct (keywords (lead_of prospect)) as [[|first others]|];
      reflexivity. }
  rewrite Htopic by reflexivity.
  rewrite (@replace_present "{{insight}}" (extractInsight (String c t)) ""
             " - really resonates with my experience in {{field}}.");
    [|vm_compute; reflexivity|exact Hinsight_plain].
  cbn [append].
  rewrite replace_skip; [|exact Hinsight_plain|left; exact Hfield_plain].
  rewrite (@replace_present "{{field}}" (String c' f)
             " - really resonates with my experience in " ".");
    [|vm_compute; reflexivity|exact Hfield_plain].
  reflexivity.
Qed.

(** X13 on a tweet of the test script. *)
Lemma reply_message_witness :
  generateEngagementMessage {| wavingHand := "(wave)"; thumbsUp := "(+1)" |} "reply"
    {| lead_of := sarah_tech 0; industry := Some "technology" |}
    (Some {| text := Some "The future of SaaS is in intelligent automation.";
             engagement := None |})
  = ret (Some (Message
                 (extractInsight "The future of SaaS is in intelligent automation."
                  ++ " - really resonates with my experience in "
                  ++ "technology" ++ "."))).
Proof.
  assert (Hc : "The future of SaaS is in intelligent automation." <> "")
    by discriminate.
  assert (Hf : "technology" <> "") by discriminate.
  exact (@reply_message_joins_insight_and_industry
           {| wavingHand := "(wave)"; thumbsUp := "(+1)" |}
           {| lead_of := sarah_tech 0; industry := Some "technology" |}
           (Some {| text := Some "The future of SaaS is in intelligent automation.";
                    engagement := None |})
           "The future of SaaS is in intelligent automation." "technology"
           eq_refl Hc eq_refl Hf eq_refl eq_refl).
Defined.

(* ================================================================== *)
(** ** Search queries *)

(** X14.  [getAdvancedSearchQueries] always ends with the same three
    generic queries; one audience query precedes them exactly for the
    audiences marketers, developers and entrepreneurs (spelled exactly so),
    and none for any other audience. *)
Theorem search_queries_end_with_generic_ones (targetAudience : string) :
  exists specific,
    getAdvancedSearchQueries targetAudience
    = (specific ++ ["AI automation (filter:links)"; "SaaS growth (filter:links)";
                    "startup marketing (filter:links)"])%list
    /\ (List.length specific <= 1)%nat
    /\ (List.length specific = 1%nat
        <-> In targetAudience ["marketers"; "developers"; "entrepreneurs"]).
Proof.
  unfold getAdvancedSearchQueries.
  destruct (String.eqb targetAudience "marketers") eqn:E1.
  { apply String.eqb_eq in E1. subst. eexists. split; [reflexivity|].
    cbn. split; [lia|]. split; auto. }
  destruct (String.eqb targetAudience "developers") eqn:E2.
  { apply String.eqb_eq in E2. subst. eexists. split; [reflexivity|].
    cbn. split; [lia|]. split; auto. }
  destruct (String.eqb targetAudience "entrepreneurs") eqn:E3.
  { apply String.eqb_eq in E3. subst. eexists. split; [reflexivity|].
    cbn. split; [lia|]. split; auto. }
  exists []. split; [reflexivity|]. cbn. split; [lia|].
  apply String.eqb_neq in E1, E2, E3.
  split; [discriminate|]. intros [H|[H|[H|[]]]]; congruence.
Qed.

(* ================================================================== *)
(** ** Properties of the Twitter client's quota tracking *)

Module ClientFacts.
Import TwitterDMClient.

Lemma keyOf_name k : keyOf (Key.name k) = Some k.
Proof. destruct k; reflexivity. Qed.

Lemma keyOf_Some action k : keyOf action = Some k -> action = Key.name k.
Proof.
  unfold keyOf. intros H. apply find_some in H as [_ H].
  apply String.eqb_eq in H. exact H.
Qed.

Lemma count_increment k k' c :
  count k (increment k' c)
  = count k c + (if String.eqb (Key.name k') (Key.name k) then 1 else 0).
Proof. destruct k, k'; cbn; lia. Qed.

Lemma name_eqb k k' :
  String.eqb (Key.name k') (Key.name k) = true <-> k' = k.
Proof. destruct k, k'; cbn; split; congruence. Qed.

Lemma withinLimits_reset today st :
  withinLimits st -> withinLimits (resetIfNewDay today st).
Proof.
  intros H. unfold resetIfNewDay.
  destruct (lastResetDate st) as [day|]; [destruct (String.eqb day today)|];
    try exact H; intros k; destruct k; cbn; lia.
Qed.

Lemma resetIfNewDay_same_day today st :
  lastResetDate st = Some today -> resetIfNewDay today st = st.
Proof.
  intros H. unfold resetIfNewDay. rewrite H, String.eqb_refl. reflexivity.
Qed.

Lemma resetIfNewDay_day today st :
  lastResetDate (resetIfNewDay today st) = Some today.
Proof.
  unfold resetIfNewDay. destruct (lastResetDate st) as [day|] eqn:E;
    [destruct (String.eqb day today) eqn:Ed|]; try reflexivity.
  apply String.eqb_eq in Ed. rewrite E, Ed. reflexivity.
Qed.

Lemma checkRateLimit_after_reset today action st :
  checkRateLimit today action st
  = checkRateLimit today action (resetIfNewDay today st).
Proof.
  unfold checkRateLimit. cbv zeta.
  rewrite (@resetIfNewDay_same_day today (resetIfNewDay today st)
             (resetIfNewDay_day today st)).
  reflexivity.
Qed.

(** What one check does to one counter on the current day. *)
Lemma checkRateLimit_count today action st k :
  lastResetDate st = Some today ->
  withinLimits st ->
  count k (apiCallCount (snd (checkRateLimit today action st)))
  = count k (apiCallCount st)
    + (if fst (checkRateLimit today action st) && String.eqb action (Key.name k)
       then 1 else 0)
  /\ withinLimits (snd (checkRateLimit today action st))
  /\ messagesSent (snd (checkRateLimit today action st)) = messagesSent st
  /\ lastResetDate (snd (checkRateLimit today action st)) = Some today.
Proof.
  intros Hday Hin. unfold checkRateLimit. cbv zeta.
  rewrite (@resetIfNewDay_same_day today st Hday).
  destruct (keyOf action) as [k'|] eqn:Hkey.
  - apply keyOf_Some in Hkey. subst action.
    destruct (negb (freeTierLimits k' =? 0)
              && (freeTierLimits k' <=? count k' (apiCallCount st))) eqn:Hfull.
    + cbn [fst snd andb]. split; [lia|]. split; [exact Hin|].
      split; [reflexivity|exact Hday].
    + cbn [fst snd andb apiCallCount messagesSent lastResetDate].
      rewrite count_increment.
      split; [reflexivity|]. split; [|split; [reflexivity|exact Hday]].
      intros k0. cbn [apiCallCount]. rewrite count_increment.
      pose proof (Hin k0) as Hk0.
      destruct (String.eqb (Key.name k') (Key.name k0)) eqn:E; [|lia].
      apply name_eqb in E. subst k0.
      apply andb_false_iff in Hfull as [Hz|Hlt].
      * apply negb_false_iff, Z.eqb_eq in Hz. destruct k'; discriminate Hz.
      * apply Z.leb_gt in Hlt. lia.
  - assert (Hno : String.eqb action (Key.name k) = false).
    { apply not_true_iff_false. intros E. apply String.eqb_eq in E.
      rewrite E, keyOf_name in Hkey. discriminate Hkey. }
    destruct (existsb _ _); [|destruct (String.eqb action "message")];
      cbn [fst snd]; rewrite Hno, andb_false_r;
      (split; [lia|split; [exact Hin|split; [reflexivity|exact Hday]]]).
Qed.

(** The same over a run of checks. *)
Lemma checkAll_count today actions st k :
  lastResetDate st = Some today ->
  withinLimits st ->
  count k (apiCallCount (snd (checkAll today actions st)))
  = count k (apiCallCount st) + granted k (fst (checkAll today actions st))
  /\ withinLimits (snd (checkAll today actions st))
  /\ messagesSent (snd (checkAll today actions st)) = messagesSent st
  /\ map fst (fst (checkAll today actions st)) = actions.
Proof.
  revert st. induction actions as [|action rest IH]; intros st Hday Hin.
  - cbn. split; [lia|]. auto.
  - cbn [checkAll].
    destruct (@checkRateLimit_count today action st k Hday Hin)
      as (Hc & Hw & Hm & Hd).
    destruct (checkRateLimit today action st) as [answer st1].
    cbn [fst snd] in *.
    destruct (IH st1 Hd Hw) as (Hc' & Hw' & Hm' & Hf').
    destruct (checkAll today rest st1) as [answers st2].
    cbn [fst snd granted map] in *.
    split; [lia|]. split; [exact Hw'|]. split; [congruence|].
    rewrite Hf'. reflexivity.
Qed.

End ClientFacts.

(** X15.  The rate limiter keeps every counter between zero and its
    free-tier limit, whatever action is checked and whether or not the day
    has changed. *)
Theorem checkRateLimit_keeps_counters_within_limits
        (today action : string) (st : TwitterDMClient.State)
        (Hwithin : TwitterDMClient.withinLimits st) :
  TwitterDMClient.withinLimits
    (snd (TwitterDMClient.checkRateLimit today action st)).
Proof.
  rewrite ClientFacts.checkRateLimit_after_reset.
  exact (proj1 (proj2
           (@ClientFacts.checkRateLimit_count today action
              (TwitterDMClient.resetIfNewDay today st) Key.userLookup
              (ClientFacts.resetIfNewDay_day today st)
              (@ClientFacts.withinLimits_reset today st Hwithin)))).
Qed.

(** X15 from the state the constructor builds. *)
Lemma checkRateLimit_keeps_counters_witness :
  TwitterDMClient.withinLimits
    (snd (TwitterDMClient.checkRateLimit "Thu Aug 07 2025" "follow"
            TwitterDMClient.initial)).
Proof.
  apply checkRateLimit_keeps_counters_within_limits.
  intros k. destruct k; cbn; lia.
Defined.

(** X16.  On one day the limiter grants at most the free-tier limit of
    checks for each counted action: over any run of checks made on the
    current day, a counter grows by exactly the number of granted checks
    that name it, checks of other names (such as "message") leave it
    alone, and it never passes its limit. *)
Theorem granted_checks_are_counted_and_bounded
        (today : string) (actions : list string)
        (st : TwitterDMClient.State) (k : Key.t)
        (Hday : TwitterDMClient.lastResetDate st = Some today)
        (Hwithin : TwitterDMClient.withinLimits st) :
  TwitterDMClient.count k
    (TwitterDMClient.apiCallCount (snd (TwitterDMClient.checkAll today actions st)))
  = TwitterDMClient.count k (TwitterDMClient.apiCallCount st)
    + TwitterDMClient.granted k (fst (TwitterDMClient.checkAll today actions st))
  /\ TwitterDMClient.granted k (fst (TwitterDMClient.checkAll today actions st))
     <= TwitterDMClient.freeTierLimits k
        - TwitterDMClient.count k (TwitterDMClient.apiCallCount st)
  /\ map fst (fst (TwitterDMClient.checkAll today actions st)) = actions.
Proof.
  destruct (@ClientFacts.checkAll_count today actions st k Hday Hwithin)
    as (Hc & Hw & _ & Hf).
  split; [exact Hc|]. split; [|exact Hf].
  pose proof (Hw k). lia.
Qed.

(** X16 with seven DM checks after a first check: the five that the limit
    allows are granted. *)
Lemma granted_checks_witness :
  TwitterDMClient.granted Key.dmSend
    (fst (TwitterDMClient.checkAll "Thu Aug 07 2025"
            (repeat "dmSend" 7)
            (snd (TwitterDMClient.checkRateLimit "Thu Aug 07 2025" "message"
                    TwitterDMClient.initial))))
  <= 5.
Proof.
  refine (proj1 (proj2
            (@granted_checks_are_counted_and_bounded "Thu Aug 07 2025"
               (repeat "dmSend" 7)
               (snd (TwitterDMClient.checkRateLimit "Thu Aug 07 2025" "message"
                       TwitterDMClient.initial))
               Key.dmSend _ _))).
  - reflexivity.
  - intros k. destruct k; cbn; lia.
Defined.

(** X17.  Checking the "message" action consumes nothing: on the current
    day a run of such checks leaves the whole state as it was, and every
    one of them gives the same answer, whether fewer than five messages
    have been sent. *)
Theorem message_checks_consume_nothing
        (today : string) (n : nat) (st : TwitterDMClient.State)
        (Hday : TwitterDMClient.lastResetDate st = Some today) :
  TwitterDMClient.checkAll today (repeat "message" n) st
  = (repeat ("message", TwitterDMClient.messagesSent st <? 5) n, st).
Proof.
  induction n as [|n IH]; [reflexivity|].
  cbn [repeat TwitterDMClient.checkAll].
  assert (E : TwitterDMClient.checkRateLimit today "message" st
              = (TwitterDMClient.messagesSent st <? 5, st)).
  { unfold TwitterDMClient.checkRateLimit. cbv zeta.
    rewrite (@ClientFacts.resetIfNewDay_same_day today st Hday). reflexivity. }
  rewrite E, IH. reflexivity.
Qed.

(** X17 after a first check has set the day. *)
Lemma message_checks_witness :
  TwitterDMClient.checkAll "Thu Aug 07 2025" (repeat "message" 3)
    (snd (TwitterDMClient.checkRateLimit "Thu Aug 07 2025" "message"
            TwitterDMClient.initial))
  = (repeat ("message", true) 3,
     snd (TwitterDMClient.checkRateLimit "Thu Aug 07 2025" "message"
            TwitterDMClient.initial)).
Proof.
  exact (@message_checks_consume_nothing "Thu Aug 07 2025" 3
           (snd (TwitterDMClient.checkRateLimit "Thu Aug 07 2025" "message"
                   TwitterDMClient.initial))
           eq_refl).
Defined.

(** X18.  What the limiter grants is what the quota loses: on the current
    day and with counters within their limits, a check of a counted action
    is granted exactly when its counter is below the limit, and the
    remaining count that [getRemainingQuota] then reports for a key is one
    less than before when the granted check named that key, and unchanged
    otherwise; the reported remaining and used counts always add up to the
    limit. *)
Theorem granted_check_lowers_remaining_quota
        (today : string) (now : Z) (st : TwitterDMClient.State) (k k' : Key.t)
        (Hday : TwitterDMClient.lastResetDate st = Some today)
        (Hwithin : TwitterDMClient.withinLimits st) :
  let checked := TwitterDMClient.checkRateLimit today (Key.name k) st in
  let before :=
    TwitterDMClient.entryOf
      (TwitterDMClient.entries (TwitterDMClient.getRemainingQuota now st)) k' in
  let after :=
    TwitterDMClient.entryOf
      (TwitterDMClient.entries
         (TwitterDMClient.getRemainingQuota now (snd checked))) k' in
  fst checked
  = (TwitterDMClient.count k (TwitterDMClient.apiCallCount st)
     <? TwitterDMClient.freeTierLimits k)
  /\ remaining after
     = remaining before
       - (if fst checked && String.eqb (Key.name k) (Key.name k') then 1 else 0)
  /\ remaining before + used before = limit before
  /\ remaining after + used after = limit after.
Proof.
  cbv zeta.
  destruct (@ClientFacts.checkRateLimit_count today (Key.name k) st k' Hday Hwithin)
    as (Hc & Hw & _ & _).
  assert (Hentry : forall s key,
             TwitterDMClient.entryOf
               (TwitterDMClient.entries (TwitterDMClient.getRemainingQuota now s)) key
             = TwitterDMClient.entryFor s key)
    by (intros s key; destruct key; reflexivity).
  rewrite !Hentry. unfold TwitterDMClient.entryFor. cbn [remaining used limit].
  pose proof (Hwithin k') as Hb. pose proof (Hw k') as Ha.
  split.
  - unfold TwitterDMClient.checkRateLimit. cbv zeta.
    rewrite (@ClientFacts.resetIfNewDay_same_day today st Hday).
    rewrite ClientFacts.keyOf_name.
    destruct (TwitterDMClient.freeTierLimits k
              <=? TwitterDMClient.count k (TwitterDMClient.apiCallCount st)) eqn:E.
    + replace (negb (TwitterDMClient.freeTierLimits k =? 0)) with true
        by (destruct k; reflexivity).
      cbn [andb fst]. symmetry. apply Z.ltb_ge. apply Z.leb_le. exact E.
    + rewrite andb_false_r. cbn [fst]. symmetry. apply Z.ltb_lt.
      apply Z.leb_gt. exact E.
  - rewrite Hc. repeat split; lia.
Qed.

(** X18 for the first follow check of a day: fifteen follows remain
    before it, fourteen after. *)
Lemma granted_check_witness :
  remaining
    (TwitterDMClient.entryOf
       (TwitterDMClient.entries
          (TwitterDMClient.getRemainingQuota 0
             (snd (TwitterDMClient.checkRateLimit "Thu Aug 07 2025" "follow"
                     (snd (TwitterDMClient.checkRateLimit "Thu Aug 07 2025"
                             "message" TwitterDMClient.initial))))))
       Key.follow)
  = 15 - 1.
Proof.
  refine (proj1 (proj2
            (@granted_check_lowers_remaining_quota "Thu Aug 07 2025" 0
               (snd (TwitterDMClient.checkRateLimit "Thu Aug 07 2025" "message"
                       TwitterDMClient.initial))
               Key.follow Key.follow _ _))).
  - reflexivity.
  - intros k. destruct k; cbn; lia.
Defined.

(** X19.  No step is planned on a used-up counter: in the sequence built
    from the quota that [getRemainingQuota] reports, the counter behind
    every step (user lookups for research, follows, likes, DMs) is below
    its free-tier limit. *)
Theorem planned_steps_have_room_in_their_counters
        (nowEngaging nowQualified now : Z) (lead : Lead)
        (st : TwitterDMClient.State) :
  exists sequence,
    completion
      (getOutreachSequence nowEngaging nowQualified lead
         (TwitterDMClient.entries (TwitterDMClient.getRemainingQuota now st)))
    = Normal sequence
    /\ Forall
         (fun step =>
            TwitterDMClient.count (TwitterDMClient.keyFor (action step))
              (TwitterDMClient.apiCallCount st)
            < TwitterDMClient.freeTierLimits
                (TwitterDMClient.keyFor (action step)))
         sequence.
Proof.
  destruct (getOutreachSequence_flags nowEngaging nowQualified lead
              (TwitterDMClient.entries (TwitterDMClient.getRemainingQuota now st)))
    as (r & e & c & d & Hseq & Hr & He & Hc & Hd).
  eexists. split; [exact Hseq|].
  cbn [TwitterDMClient.getRemainingQuota TwitterDMClient.entries userLookup
         follow like dmSend TwitterDMClient.entryFor remaining] in Hr, He, Hc, Hd.
  apply Forall_forall. intros step Hin.
  destruct r, e, c, d; cbn in Hin;
    repeat match goal with
      | H : true = true -> _ |- _ => specialize (H eq_refl)
      | H : _ \/ _ |- _ => destruct H
      | H : _ /\ _ |- _ => destruct H
      | H : False |- _ => destruct H
      end;
    subst; cbn [action researchStep followStep likeStep dmSendStep
                  TwitterDMClient.keyFor]; lia.
Qed.

(* ================================================================== *)
(** ** Properties of the client's own qualification *)

Lemma lowerChar_idempotent c :
  JsString.lowerChar (JsString.lowerChar c) = JsString.lowerChar c.
Proof. destruct c as [[] [] [] [] [] [] [] []]; reflexivity. Qed.

Lemma toLowerCase_idempotent s :
  JsString.toLowerCase (JsString.toLowerCase s) = JsString.toLowerCase s.
Proof.
  induction s as [|c s IH]; [reflexivity|].
  cbn. rewrite lowerChar_idempotent, IH. reflexivity.
Qed.

Lemma toLowerCase_app s t :
  JsString.toLowerCase (s ++ t) = JsString.toLowerCase s ++ JsString.toLowerCase t.
Proof.
  induction s as [|c s IH]; [reflexivity|]. cbn. rewrite IH. reflexivity.
Qed.

Lemma Substring_app_l p s t : Substring p s -> Substring p (s ++ t).
Proof.
  intros (a & b & ->). exists a, (b ++ t).
  rewrite !append_assoc. reflexivity.
Qed.

Lemma Substring_app_r p s t : Substring p t -> Substring p (s ++ t).
Proof.
  intros (a & b & ->). exists (s ++ a), b.
  rewrite !append_assoc. reflexivity.
Qed.

Lemma Substring_nonempty p s : p <> "" -> Substring p s -> s <> "".
Proof.
  intros Hp (a & b & ->) H. destruct a; [|discriminate H].
  destruct p; [contradiction|discriminate H].
Qed.

Lemma hasSpamIndicators_complete username bio indicator field :
  In indicator TwitterDMClient.spamIndicators ->
  username = Some field \/ bio = Some field ->
  Substring indicator (JsString.toLowerCase field) ->
  TwitterDMClient.hasSpamIndicators username bio = true.
Proof.
  intros Hin Hfield Hsub.
  assert (Hne : indicator <> "").
  { cbn in Hin. repeat destruct Hin as [<-|Hin]; try discriminate.
    contradiction. }
  assert (Hfne : field <> "").
  { intros ->. apply (Substring_nonempty Hne Hsub). reflexivity. }
  unfold TwitterDMClient.hasSpamIndicators.
  assert (Hguard : negb (truthyString username) && negb (truthyString bio) = false).
  { destruct Hfield as [-> | ->]; destruct field; try contradiction; cbn;
      [reflexivity|apply andb_false_r]. }
  rewrite Hguard. cbv zeta.
  apply existsb_exists. exists indicator. split; [exact Hin|].
  apply includes_spec. rewrite !toLowerCase_app.
  destruct Hfield as [-> | ->]; cbn [TwitterDMClient.orEmpty].
  - apply Substring_app_l. exact Hsub.
  - apply Substring_app_r, Substring_app_r. exact Hsub.
Qed.

(** X20.  The client's spam check finds every indicator that occurs,
    in any letter case, in the username or in the bio; it answers false
    when both are absent or empty. *)
Theorem hasSpamIndicators_finds_indicators (username bio : option string) :
  (truthyString username = false -> truthyString bio = false ->
   TwitterDMClient.hasSpamIndicators username bio = false)
  /\ (forall indicator field,
         In indicator TwitterDMClient.spamIndicators ->
         username = Some field \/ bio = Some field ->
         Substring indicator (JsString.toLowerCase field) ->
         TwitterDMClient.hasSpamIndicators username bio = true).
Proof.
  split.
  - intros Hu Hb. unfold TwitterDMClient.hasSpamIndicators.
    rewrite Hu, Hb. reflexivity.
  - intros indicator field. apply hasSpamIndicators_complete.
Qed.

(** X20 on the bot account of the test script. *)
Lemma hasSpamIndicators_witness :
  TwitterDMClient.hasSpamIndicators (Some "alex_bot_follower")
    (Some "Get 10k followers fast! Buy followers now!")
  = true.
Proof.
  apply (proj2 (hasSpamIndicators_finds_indicators _ _) "bot" "alex_bot_follower").
  - cbn. auto.
  - left. reflexivity.
  - apply includes_spec. vm_compute. reflexivity.
Defined.

Lemma Normal_injective A (a b : A) : Normal a = Normal b -> a = b.
Proof. intros H. injection H as H. exact H. Qed.

(** X21.  The two spam scans agree in one direction: whenever the
    strategy's [noSpamKeywords] criterion fails for a lead, the client's
    [hasSpamIndicators] answers true for that lead's username and bio. *)
Theorem client_flags_what_strategy_rejects (lead : Lead)
        (Hrejected : completion (basicCriteria.noSpamKeywords lead) = Normal false) :
  TwitterDMClient.hasSpamIndicators (username lead) (bio lead) = true.
Proof.
  unfold basicCriteria.noSpamKeywords in Hrejected.
  cbn [completion ret] in Hrejected. apply Normal_injective in Hrejected.
  apply negb_false_iff, existsb_exists in Hrejected as (marker & Hin & Hhit).
  assert (Hind : In marker TwitterDMClient.spamIndicators).
  { cbn in Hin. cbn. intuition. }
  apply orb_true_iff in Hhit as [Hhit|Hhit].
  - destruct (username lead) as [u|] eqn:Hu; [|discriminate Hhit].
    cbn [optChain truthyBool] in Hhit. apply includes_spec in Hhit.
    exact (@hasSpamIndicators_complete (Some u) (bio lead) marker u
             Hind (or_introl eq_refl) Hhit).
  - destruct (bio lead) as [b|] eqn:Hb; [|discriminate Hhit].
    cbn [optChain truthyBool] in Hhit. apply includes_spec in Hhit.
    exact (@hasSpamIndicators_complete (username lead) (Some b) marker b
             Hind (or_intror eq_refl) Hhit).
Qed.

(** X21 on the bot account of the test script. *)
Lemma client_flags_what_strategy_rejects_witness :
  TwitterDMClient.hasSpamIndicators (Some "alex_bot_follower")
    (Some "Get 10k followers fast! Buy followers now!")
  = true.
Proof.
  exact (@client_flags_what_strategy_rejects
           {| username := Some "alex_bot_follower";
              bio := Some "Get 10k followers fast! Buy followers now!";
              followerCount := Some 500; recentTweets := None;
              lastActivity := None; keywords := Some ["follow"; "followers"];
              hasEngagedWithUs := Some false; mutualConnections := Some [] |}
           eq_refl).
Defined.

(** X22.  The client's relevance check ignores letter case, and it accepts
    every keyword tag on which the strategy's relevance criterion can
    rest: when [hasRelevantKeywords] of the strategy holds for a lead, one
    of its keyword tags passes the client's [hasRelevantKeywords]. *)
Theorem client_relevance_check_covers_strategy :
  (forall content,
      TwitterDMClient.hasRelevantKeywords (Some (JsString.toLowerCase content))
      = TwitterDMClient.hasRelevantKeywords (Some content))
  /\ (forall lead,
         completion (basicCriteria.hasRelevantKeywords lead) = Normal true ->
         exists tags tag,
           keywords lead = Some tags /\ In tag tags
           /\ TwitterDMClient.hasRelevantKeywords (Some tag) = true).
Proof.
  split.
  - intros [|c s]; [reflexivity|].
    unfold TwitterDMClient.hasRelevantKeywords. cbn [JsString.toLowerCase].
    rewrite lowerChar_idempotent, toLowerCase_idempotent. reflexivity.
  - intros lead H. rewrite hasRelevantKeywords_value in H.
    cbn [completion ret] in H. apply Normal_injective in H.
    destruct (keywords lead) as [tags|]; [|discriminate H].
    apply existsb_exists in H as (tag & Htag & H).
    apply existsb_exists in H as (topic & Htopic & H).
    exists tags, tag. split; [reflexivity|]. split; [exact Htag|].
    destruct tag as [|c s].
    + exfalso. cbn in Htopic.
      repeat destruct Htopic as [<-|Htopic]; try discriminate H.
      contradiction.
    + cbn [TwitterDMClient.hasRelevantKeywords].
      apply existsb_exists. exists topic. split; [|exact H].
      cbn in Htopic. cbn. intuition.
Qed.

(** X22 at the scenario lead: its tag AI passes both checks. *)
Lemma client_relevance_check_witness :
  exists tags tag,
    keywords (sarah_tech 0) = Some tags /\ In tag tags
    /\ TwitterDMClient.hasRelevantKeywords (Some tag) = true.
Proof.
  apply (proj2 client_relevance_check_covers_strategy (sarah_tech 0)).
  reflexivity.
Defined.

Lemma forDM_goodEngagementRate_as_lead userData leadData :
  TwitterDMClient.forDM.goodEngagementRate userData leadData
  = engagementRateAtLeast (1 # 100) (TwitterDMClient.asLead userData leadData).
Proof. reflexivity. Qed.

(** X23.  [isHighlyQualifiedForDM] completes normally for every user and
    lead record, whichever fields are absent, and divides only by a
    follower count it has found positive.  For counts that doubles hold
    exactly (follower count and summed likes at most 2^53, no negative
    like count) its engagement-rate criterion is a true one per cent: it
    holds exactly when the follower count is positive and at most a
    hundred times the likes of the recent tweets. *)
Theorem isHighlyQualifiedForDM_is_safe_and_uses_one_per_cent
        (now : Z) (userData : TwitterDMClient.UserData) (leadData : Lead) :
  (exists ds v,
      evaluates (TwitterDMClient.isHighlyQualifiedForDM now userData leadData) ds v
      /\ Forall positiveDivisor ds)
  /\ (countsAreExact (TwitterDMClient.followerCount userData) leadData = true ->
      (completion (TwitterDMClient.forDM.goodEngagementRate userData leadData)
       = Normal true
       <-> exists followers total,
            TwitterDMClient.followerCount userData = Some followers
            /\ totalLikes leadData = Some total
            /\ 0 < followers
            /\ followers <= 100 * total)).
Proof.
  split.
  - destruct (engagementRateAtLeast_evaluates (1 # 100)
                (TwitterDMClient.asLead userData leadData))
      as (ds & rate & Hrate & Hds).
    rewrite <- forDM_goodEngagementRate_as_lead in Hrate.
    assert (Hcontent : exists v,
               TwitterDMClient.forDM.relevantContent userData leadData = ret v).
    { unfold TwitterDMClient.forDM.relevantContent.
      destruct (TwitterDMClient.hasRelevantKeywords _); [eauto|].
      destruct (recentTweets leadData); cbn [defined member]; eauto. }
    destruct Hcontent as (v4 & Hcontent).
    assert (Hmutual : TwitterDMClient.forDM.hasMutualConnections leadData
                      = strictCriteria.mutualConnections leadData)
      by reflexivity.
    exists ds. eexists. split; [|exact Hds].
    unfold TwitterDMClient.isHighlyQualifiedForDM,
      TwitterDMClient.forDM.reasonableFollowers.
    rewrite bind_ret_l.
    rewrite <- (app_nil_r ds).
    eapply evaluates_bind; [exact Hrate|].
    unfold TwitterDMClient.forDM.recentActivity,
      TwitterDMClient.forDM.noSpamIndicators,
      TwitterDMClient.forDM.hasEngagedWithUs.
    rewrite activeWithin_value, Hcontent, Hmutual, mutualConnections_value.
    rewrite !bind_ret_l. reflexivity.
  - intros _. rewrite forDM_goodEngagementRate_as_lead.
    change (1 # 100)%Q with (Qmake 1 (Z.to_pos 100)).
    rewrite (@engagementRateAtLeast_integers 1 100
               (TwitterDMClient.asLead userData leadData)) by lia.
    cbn [followerCount TwitterDMClient.asLead].
    change (totalLikes (TwitterDMClient.asLead userData leadData))
      with (totalLikes leadData).
    split; intros (f & t & Ef & Et & Hpos & Hle); exists f, t;
      repeat split; try assumption; lia.
Qed.

(** X23 at the failing lead of the worth-engaging vote: 600 likes over
    60000 followers pass the client's one per cent. *)
Lemma isHighlyQualifiedForDM_witness :
  completion
    (TwitterDMClient.forDM.goodEngagementRate
       {| TwitterDMClient.username := Some "popular_account";
          TwitterDMClient.bio := None;
          TwitterDMClient.followerCount := Some 60000 |}
       popular_account)
  = Normal true.
Proof.
  refine (proj2 (proj2 (isHighlyQualifiedForDM_is_safe_and_uses_one_per_cent 0
                         {| TwitterDMClient.username := Some "popular_account";
                            TwitterDMClient.bio := None;
                            TwitterDMClient.followerCount := Some 60000 |}
                         popular_account) _) _).
  - vm_compute; reflexivity.
  - exists 60000, 600. repeat split; try reflexivity; lia.
Defined.

(* ================================================================== *)
(** ** The passing of time *)

Lemma activeWithin_earlier days now now' lead v v' :
  now <= now' ->
  activeWithin days now lead = ret v ->
  activeWithin days now' lead = ret v' ->
  v' = true -> v = true.
Proof.
  intros Hle Hv Hv' ->. rewrite activeWithin_value in Hv, Hv'.
  apply (f_equal (@completion bool)) in Hv, Hv'. cbn [completion ret] in Hv, Hv'.
  apply Normal_injective in Hv, Hv'. subst v.
  destruct (lastActivity lead) as [last|]; [|discriminate Hv'].
  apply Z.ltb_lt in Hv'. apply Z.ltb_lt. lia.
Qed.

Lemma ret_injective A (a b : A) : ret a = ret b -> a = b.
Proof.
  intros H. apply (f_equal (@completion A)) in H. apply Normal_injective in H.
  exact H.
Qed.

Lemma isWorthEngaging_earlier now now' lead :
  now <= now' ->
  completion (isWorthEngaging now' lead) = Normal true ->
  completion (isWorthEngaging now lead) = Normal true.
Proof.
  intros Hle H.
  destruct (isWorthEngaging_value now lead)
    as (ds & v1 & v2 & v3 & v4 & v5 & v6 & E1 & E2 & E3 & E4 & E5 & E6 & _ & E).
  destruct (isWorthEngaging_value now' lead)
    as (ds' & w1 & w2 & w3 & w4 & w5 & w6 & F1 & F2 & F3 & F4 & F5 & F6 & _ & F).
  rewrite E1 in F1. apply ret_injective in F1. subst w1.
  rewrite E2 in F2. apply ret_injective in F2. subst w2.
  rewrite E3 in F3. apply ret_injective in F3. subst w3.
  rewrite E5 in F5. apply ret_injective in F5. subst w5.
  unfold evaluates in E6, F6. rewrite E6 in F6.
  apply (f_equal (@completion bool)) in F6. apply Normal_injective in F6. subst w6.
  unfold evaluates in E, F. rewrite F in H. rewrite E.
  cbn [completion] in *. apply Normal_injective in H. f_equal.
  assert (Hactive : w4 = true -> v4 = true)
    by (apply (@activeWithin_earlier _ now now' lead v4 w4 Hle E4 F4)).
  destruct v1, v2, v3, v5, v6, w4; try (rewrite Hactive by reflexivity);
    try reflexivity; try discriminate H; destruct v4; reflexivity.
Qed.

Lemma isHighlyQualified_earlier now now' lead :
  now <= now' ->
  completion (isHighlyQualified now' lead) = Normal true ->
  completion (isHighlyQualified now lead) = Normal true.
Proof.
  intros Hle H.
  destruct (isHighlyQualified_value now lead)
    as (ds & v1 & v2 & v3 & v4 & v5 & E1 & E2 & E3 & E4 & E5 & _ & E).
  destruct (isHighlyQualified_value now' lead)
    as (ds' & w1 & w2 & w3 & w4 & w5 & F1 & F2 & F3 & F4 & F5 & _ & F).
  rewrite E1 in F1. apply ret_injective in F1. subst w1.
  rewrite E2 in F2. apply ret_injective in F2. subst w2.
  rewrite E5 in F5. apply ret_injective in F5. subst w5.
  unfold evaluates in E3, F3. rewrite E3 in F3.
  apply (f_equal (@completion bool)) in F3. apply Normal_injective in F3. subst w3.
  unfold evaluates in E, F. rewrite F in H. rewrite E.
  cbn [completion] in *. apply Normal_injective in H. f_equal.
  assert (Hactive : w4 = true -> v4 = true)
    by (apply (@activeWithin_earlier _ now now' lead v4 w4 Hle E4 F4)).
  destruct v1, v2, v3, v5, w4; try (rewrite Hactive by reflexivity);
    try reflexivity; try discriminate H; destruct v4; reflexivity.
Qed.

(** X24.  Waiting never adds a step: for the same lead and quota, every
    action kind planned at later clock readings is also planned at
    earlier ones. *)
Theorem later_readings_plan_no_new_steps
        (nowEngaging nowQualified laterEngaging laterQualified : Z)
        (lead : Lead) (apiQuota : ApiQuota)
        (Hengaging : nowEngaging <= laterEngaging)
        (Hqualified : nowQualified <= laterQualified) :
  exists earlier later,
    completion (getOutreachSequence nowEngaging nowQualified lead apiQuota)
    = Normal earlier
    /\ completion (getOutreachSequence laterEngaging laterQualified lead apiQuota)
       = Normal later
    /\ incl (map action later) (map action earlier).
Proof.
  destruct (getOutreachSequence_decisions nowEngaging nowQualified lead apiQuota)
    as (wr & we & hq & r & e & c & d & Hwr & Hwe & Hhq & Hseq & Er & Ee & Ec & Ed).
  destruct (getOutreachSequence_decisions laterEngaging laterQualified lead apiQuota)
    as (wr' & we' & hq' & r' & e' & c' & d' & Hwr' & Hwe' & Hhq' & Hseq'
        & Er' & Ee' & Ec' & Ed').
  exists (assemble r e c d), (assemble r' e' c' d').
  split; [exact Hseq|]. split; [exact Hseq'|].
  rewrite Hwr in Hwr'. apply Normal_injective in Hwr'. subst wr'.
  assert (Hwe_imp : we' = true -> we = true).
  { intros ->. pose proof (isWorthEngaging_earlier lead Hengaging Hwe') as H.
    rewrite Hwe in H. apply Normal_injective in H. exact H. }
  assert (Hhq_imp : hq' = true -> hq = true).
  { intros ->. pose proof (isHighlyQualified_earlier lead Hqualified Hhq') as H.
    rewrite Hhq in H. apply Normal_injective in H. exact H. }
  assert (Hr : r' = r) by congruence.
  assert (Hc : c' = c) by congruence.
  assert (He : e' = true -> e = true).
  { rewrite Ee, Ee', !andb_true_iff. tauto. }
  assert (Hd : d' = true -> d = true).
  { rewrite Ed, Ed', !andb_true_iff. intros [[Hq Hh] Hlen].
    repeat split; auto.
    clear - Hlen He Hr Hc. subst r' c'.
    destruct r, e', e, c; cbn in Hlen |- *; auto;
      try discriminate Hlen; specialize (He eq_refl); discriminate He. }
  intros kind Hin. apply assemble_In in Hin. apply assemble_In.
  rewrite Hr, Hc in Hin. destruct kind; tauto.
Qed.

(** X24 between a clock reading and one a week later. *)
Lemma later_readings_witness :
  exists earlier later,
    completion (getOutreachSequence 0 0 (sarah_tech 0) mockQuota) = Normal earlier
    /\ completion (getOutreachSequence (7 * day) (7 * day) (sarah_tech 0) mockQuota)
       = Normal later
    /\ incl (map action later) (map action earlier).
Proof.
  apply later_readings_plan_no_new_steps; unfold day; lia.
Defined.
